(** * nexora: the Cloudflare DNS record tool [dns.py]

    A shallow embedding of [dns.py] and the properties of its three
    commands ([add], [rm], [list]).

    - A Python [str] is the list of its Unicode code points.
    - [print], the calls on the provider client and [sys.exit] are the
      effects of the script: a computation yields the trace of what it
      printed and called, in order, and how it ended.
    - The provider client ([cloudflare.Cloudflare]) is outside the
      repository: it is an oracle giving, for each call, the value
      returned or the exception raised.  One run makes at most one call
      of each kind, so the oracle needs no state. *)

From stdpp Require Import base option list strings gmap.
From Stdlib Require Import ZArith NArith Ascii.

Local Open Scope Z_scope.
Set Warnings "-register-all".

(** ** Python strings *)

Abbreviation pystr := (list N).

(** A string literal of the source (all of them are ASCII). *)
Fixpoint lit (s : string) : pystr :=
  match s with
  | EmptyString => []
  | String a s' => N_of_ascii a :: lit s'
  end.

Arguments lit : simpl never.

(** [str.isspace] on one code point: CPython's [_PyUnicode_IsWhitespace]. *)
Definition isspace (c : N) : bool :=
  ((0x09 <=? c) && (c <=? 0x0D) ||
   (0x1C <=? c) && (c <=? 0x20) ||
   (c =? 0x85) || (c =? 0xA0) || (c =? 0x1680) ||
   (0x2000 <=? c) && (c <=? 0x200A) ||
   (c =? 0x2028) || (c =? 0x2029) || (c =? 0x202F) ||
   (c =? 0x205F) || (c =? 0x3000))%N.

Fixpoint lstrip (s : pystr) : pystr :=
  match s with
  | [] => []
  | c :: s' => if isspace c then lstrip s' else s
  end.

Definition rstrip (s : pystr) : pystr := reverse (lstrip (reverse s)).

(** [s.strip()] with no argument. *)
Definition strip (s : pystr) : pystr := rstrip (lstrip s).

(** [needle in hay] on strings. *)
Fixpoint startswith (hay needle : pystr) : bool :=
  match needle, hay with
  | [], _ => true
  | _ :: _, [] => false
  | a :: needle', b :: hay' => bool_decide (a = b) && startswith hay' needle'
  end.

Fixpoint contains (needle hay : pystr) : bool :=
  startswith hay needle ||
  match hay with
  | [] => false
  | _ :: hay' => contains needle hay'
  end.

(** [str(b)] for a [bool], and for a value that is a [bool] or [None]. *)
Definition str_of_bool (b : bool) : pystr :=
  if b then lit "True" else lit "False".

Definition str_of_opt_bool (o : option bool) : pystr :=
  match o with
  | None => lit "None"
  | Some b => str_of_bool b
  end.

(** ** Effects *)

Inductive stream := Stdout | Stderr.

(** The calls of the provider client, with their keyword arguments. *)
Inductive call :=
| records_list (zone_id : pystr)
| records_create (zone_id type name content : pystr) (proxied : bool)
| records_update (dns_record_id zone_id type name content : pystr)
                 (proxied : bool)
| records_delete (dns_record_id zone_id : pystr).

Inductive event :=
| Output (s : stream) (msg : pystr)
| Api (c : call).

(** An exception of the script's world.  [APIError] is the provider's
    exception class; [OtherException] is any other subclass of
    [Exception].  Both carry their [str(e)]. *)
Inductive exn :=
| APIError (msg : pystr)
| OtherException (msg : pystr).

Definition str_of_exn (e : exn) : pystr :=
  match e with APIError m | OtherException m => m end.

(** How a computation ends: it returns; [sys.exit(code)] unwinds to the
    top (no handler of the script catches [SystemExit]); an exception
    propagates; or the command line is one that this model of
    [argparse] does not cover. *)
Inductive outcome (A : Type) :=
| Ret (a : A)
| Exit (code : Z)
| Raise (e : exn)
| NotCovered.
Arguments Ret {A} a.
Arguments Exit {A} code.
Arguments Raise {A} e.
Arguments NotCovered {A}.

Definition M (A : Type) : Type := list event * outcome A.

#[export] Instance M_ret : MRet M := λ A a, ([], Ret a).

#[export] Instance M_bind : MBind M := λ A B f m,
  match m with
  | (t, Ret a) => let '(t', o) := f a in (t ++ t', o)
  | (t, Exit c) => (t, Exit c)
  | (t, Raise e) => (t, Raise e)
  | (t, NotCovered) => (t, NotCovered)
  end.

Definition emit (e : event) : M unit := ([e], Ret tt).

(** [print(msg)] and [print(msg, file=sys.stderr)]. *)
Definition print (msg : pystr) : M unit := emit (Output Stdout msg).
Definition eprint (msg : pystr) : M unit := emit (Output Stderr msg).

Definition sys_exit {A} (code : Z) : M A := ([], Exit code).
Definition raise {A} (e : exn) : M A := ([], Raise e).

(** [try: body  except APIError as e: ...  except Exception as e: ...]:
    the handler receives the exception and tells the two clauses apart. *)
Definition try_except {A} (body : M A) (handler : exn → M A) : M A :=
  match body with
  | (t, Raise e) => let '(t', o) := handler e in (t ++ t', o)
  | _ => body
  end.

(** What a call on a library object does: return or raise. *)
Inductive response (A : Type) :=
| Returns (a : A)
| Raises (e : exn).
Arguments Returns {A} a.
Arguments Raises {A} e.

(** A call on the provider client: recorded in the trace, then answered. *)
Definition api {A} (c : call) (r : response A) : M A :=
  emit (Api c);;
  match r with
  | Returns a => mret a
  | Raises e => raise e
  end.

(** The exit status of the process, where the model determines it: an
    uncaught exception ends a Python process with status 1. *)
Definition exit_status (o : outcome unit) : option Z :=
  match o with
  | Ret _ => Some 0
  | Exit code => Some code
  | Raise _ => Some 1
  | NotCovered => None
  end.

(** ** Projections of a trace *)

Definition api_calls (t : list event) : list call :=
  omap (λ e, match e with Api c => Some c | Output _ _ => None end) t.

Definition printed (s : stream) (t : list event) : list pystr :=
  omap (λ e, match e, s with
             | Output Stdout m, Stdout | Output Stderr m, Stderr => Some m
             | _, _ => None
             end) t.

Definition is_create (c : call) : bool :=
  match c with records_create _ _ _ _ _ => true | _ => false end.
Definition is_update (c : call) : bool :=
  match c with records_update _ _ _ _ _ _ => true | _ => false end.
Definition is_delete (c : call) : bool :=
  match c with records_delete _ _ => true | _ => false end.

Definition creates (t : list event) : list call := filter is_create (api_calls t).
Definition updates (t : list event) : list call := filter is_update (api_calls t).
Definition deletes (t : list event) : list call := filter is_delete (api_calls t).

(** ** Configuration: [get_env], [load_config] *)

Definition get_env (environ : gmap pystr pystr) (key : pystr) : M pystr :=
  match environ !! key with
  | Some value =>
      if bool_decide (strip value = [])
      then eprint (lit "Error: Environment variable " ++ key ++
                   lit " cannot be empty.");; sys_exit 1
      else mret value
  | None =>
      eprint (lit "Error: Environment variable " ++ key ++
              lit " cannot be empty.");; sys_exit 1
  end.

Definition CLOUDFLARE_EMAIL : pystr := lit "CLOUDFLARE_EMAIL".
Definition CLOUDFLARE_API_KEY : pystr := lit "CLOUDFLARE_API_KEY".
Definition ZONE_ID : pystr := lit "ZONE_ID".

(** The dict literal is evaluated left to right. *)
Definition load_config (environ : gmap pystr pystr) : M (gmap pystr pystr) :=
  email ← get_env environ CLOUDFLARE_EMAIL;
  api_key ← get_env environ CLOUDFLARE_API_KEY;
  zone_id ← get_env environ ZONE_ID;
  mret (<[ZONE_ID := zone_id]>
        (<[CLOUDFLARE_API_KEY := api_key]>
         (<[CLOUDFLARE_EMAIL := email]> ∅))).

(** ** Values handed to [json.dumps] *)

Inductive json :=
| JNull
| JBool (b : bool)
| JInt (z : Z)
| JStr (s : pystr)
| JList (items : list json)
| JDict (items : list (pystr * json)).

Definition json_of_opt_bool (o : option bool) : json :=
  match o with
  | None => JNull
  | Some b => JBool b
  end.

(** ** The command line *)

Record AddArgs := {
  add_record_name : pystr;
  add_ip_address : pystr;
  add_proxy : bool;
}.

Record RmArgs := { rm_record_name : pystr }.

(** The [Namespace] that [parse_args] returns: the sub-command chosen
    (its [func]) and that sub-command's attributes. *)
Inductive Namespace :=
| NsAdd (args : AddArgs)
| NsRm (args : RmArgs)
| NsList.

Definition dashed (tok : pystr) : bool := startswith tok (lit "-").

Definition is_proxy_flag (tok : pystr) : bool := bool_decide (tok = lit "--proxy").

(** The parser that [main] declares: [add record_name ip_address
    [--proxy]] with [--proxy] a [store_true] flag (so [False] unless
    given), [rm record_name], [list].  Covered: command lines whose
    first token is the sub-command, whose only token starting with a
    dash is the literal [--proxy] (for [add]), and which give each
    positional once.  Anything else ([-h], abbreviated flags, usage
    errors) is left to [argparse] and is [NotCovered]. *)
Definition parse_args (argv : list pystr) : M Namespace :=
  match argv with
  | [] => ([], NotCovered)
  | cmd :: rest =>
      if bool_decide (cmd = lit "add") then
        if forallb (λ tok, negb (dashed tok) || is_proxy_flag tok) rest then
          match filter (λ tok, negb (dashed tok)) rest with
          | [record_name; ip_address] =>
              mret (NsAdd {| add_record_name := record_name;
                             add_ip_address := ip_address;
                             add_proxy := existsb is_proxy_flag rest |})
          | _ => ([], NotCovered)
          end
        else ([], NotCovered)
      else if bool_decide (cmd = lit "rm") then
        match rest with
        | [record_name] =>
            if dashed record_name then ([], NotCovered)
            else mret (NsRm {| rm_record_name := record_name |})
        | _ => ([], NotCovered)
        end
      else if bool_decide (cmd = lit "list") then
        match rest with
        | [] => mret NsList
        | _ => ([], NotCovered)
        end
      else ([], NotCovered)
  end.

(** ** The provider's records and client *)

Section Program.

(** [datetime], its [isoformat] and [json.dumps(_, indent=2)] belong to
    the standard library. *)
Context {datetime : Type}.
Context (isoformat : datetime → pystr).
Context (json_dumps : json → pystr).

(** A [cloudflare.types.dns.Record], with the attributes the script reads. *)
Record DnsRecord := {
  rec_id : pystr;
  rec_type : pystr;
  rec_name : pystr;
  rec_content : pystr;
  rec_proxied : option bool;
  rec_ttl : Z;
  rec_created_on : option datetime;
  rec_modified_on : option datetime;
}.

Record RecordDeleteResponse := { del_id : pystr }.

(** The client: what each of the four calls answers.  [create],
    [update] and [delete] may return [None]. *)
Record Cloudflare := {
  list_response : pystr → response (list DnsRecord);
  create_response : pystr → pystr → pystr → pystr → bool →
                    response (option DnsRecord);
  update_response : pystr → pystr → pystr → pystr → pystr → bool →
                    response (option DnsRecord);
  delete_response : pystr → pystr → response (option RecordDeleteResponse);
}.

(** ** The operations *)

Definition get_all_dns_records (cf : Cloudflare) (zone_id : pystr)
  : M (list DnsRecord) :=
  try_except
    (records_list ← api (records_list zone_id) (list_response cf zone_id);
     mret records_list)
    (λ e, match e with
          | APIError m =>
              eprint (lit "Error fetching DNS records: " ++ m);;
              sys_exit 1
          | OtherException m =>
              eprint (lit "An unexpected error occurred while fetching DNS records: " ++ m);;
              sys_exit 1
          end).

Fixpoint find_dns_record (name record_type : pystr) (records : list DnsRecord)
  : option DnsRecord :=
  match records with
  | [] => None
  | record :: rest =>
      if bool_decide (rec_name record = name) &&
         bool_decide (rec_type record = record_type)
      then Some record
      else find_dns_record name record_type rest
  end.

(** [obj.id] where [obj] may be [None]. *)
Definition getattr_id {A} (get : A → pystr) (obj : option A) : M pystr :=
  match obj with
  | Some o => mret (get o)
  | None => raise (OtherException (lit "'NoneType' object has no attribute 'id'"))
  end.

Definition create_dns_record (cf : Cloudflare)
    (zone_id record_type name content : pystr) (proxied : bool)
  : M (option DnsRecord) :=
  print (lit "Attempting to create " ++ record_type ++ lit " record for " ++
         name ++ lit " -> " ++ content ++ lit " (Proxied: " ++
         str_of_bool proxied ++ lit ")...");;
  try_except
    (created_record ← api (records_create zone_id record_type name content proxied)
                          (create_response cf zone_id record_type name content proxied);
     created_id ← getattr_id rec_id created_record;
     print (lit "Successfully created record (ID: " ++ created_id ++ lit ").");;
     mret created_record)
    (λ e, match e with
          | APIError m =>
              eprint (lit "Error creating DNS record: " ++ m);;
              (if contains (lit "already exists") m
               then print (lit "Hint: A record with this name and type might already exist.")
               else mret tt);;
              sys_exit 1
          | OtherException m =>
              eprint (lit "An unexpected error occurred while creating DNS record: " ++ m);;
              sys_exit 1
          end).

Definition update_dns_record (cf : Cloudflare)
    (zone_id dns_record_id record_type name content : pystr) (proxied : bool)
  : M (option DnsRecord) :=
  print (lit "Attempting to update record " ++ name ++ lit " (ID: " ++
         dns_record_id ++ lit ") -> " ++ content ++ lit " (Proxied: " ++
         str_of_bool proxied ++ lit ")...");;
  try_except
    (updated_record ← api (records_update dns_record_id zone_id record_type name content proxied)
                          (update_response cf dns_record_id zone_id record_type name content proxied);
     print (lit "Successfully updated record.");;
     mret updated_record)
    (λ e, match e with
          | APIError m =>
              eprint (lit "Error updating DNS record: " ++ m);;
              sys_exit 1
          | OtherException m =>
              eprint (lit "An unexpected error occurred while updating DNS record: " ++ m);;
              sys_exit 1
          end).

(** [delete_result and delete_result.id == dns_record_id]: a response
    object is truthy, [None] is not. *)
Definition delete_confirmed (delete_result : option RecordDeleteResponse)
    (dns_record_id : pystr) : bool :=
  match delete_result with
  | Some d => bool_decide (del_id d = dns_record_id)
  | None => false
  end.

Definition delete_dns_record (cf : Cloudflare)
    (zone_id dns_record_id record_name : pystr) : M bool :=
  print (lit "Attempting to delete record " ++ record_name ++ lit " (ID: " ++
         dns_record_id ++ lit ")...");;
  try_except
    (delete_result ← api (records_delete dns_record_id zone_id)
                         (delete_response cf dns_record_id zone_id);
     if delete_confirmed delete_result dns_record_id
     then print (lit "Successfully deleted record " ++ record_name ++ lit ".");;
          mret true
     else eprint (lit "Warning: Delete operation completed but response format was unexpected for " ++
                  record_name ++ lit ". Please verify.");;
          mret false)
    (λ e, match e with
          | APIError m =>
              eprint (lit "Error deleting DNS record: " ++ m);;
              sys_exit 1
          | OtherException m =>
              eprint (lit "An unexpected error occurred while deleting DNS record: " ++ m);;
              sys_exit 1
          end).

(** ** The three commands *)

Definition handle_add_or_update (cf : Cloudflare) (zone_id : pystr)
    (args : AddArgs) : M unit :=
  let record_name := add_record_name args in
  let ip_address := add_ip_address args in
  let proxied := add_proxy args in
  let record_type := lit "A" in
  print (lit "Fetching existing records for zone " ++ zone_id ++ lit "...");;
  all_records ← get_all_dns_records cf zone_id;
  print (lit "Searching for existing " ++ record_type ++ lit " record named '" ++
         record_name ++ lit "'...");;
  match find_dns_record record_name record_type all_records with
  | Some existing_record =>
      print (lit "Found existing record (ID: " ++ rec_id existing_record ++
             lit ", IP: " ++ rec_content existing_record ++
             lit ", Proxied: " ++ str_of_opt_bool (rec_proxied existing_record) ++
             lit ").");;
      if bool_decide (rec_content existing_record = ip_address) &&
         bool_decide (rec_proxied existing_record = Some proxied)
      then print (lit "Record already exists with the correct IP and proxy status. No changes needed.")
      else update_dns_record cf zone_id (rec_id existing_record) record_type
                             record_name ip_address proxied;;
           mret tt
  | None =>
      print (lit "No existing " ++ record_type ++ lit " record found for '" ++
             record_name ++ lit "'. Creating new record...");;
      create_dns_record cf zone_id record_type record_name ip_address proxied;;
      mret tt
  end.

Definition handle_remove (cf : Cloudflare) (zone_id : pystr) (args : RmArgs)
  : M unit :=
  let record_name := rm_record_name args in
  let record_type := lit "A" in
  print (lit "Fetching existing records for zone " ++ zone_id ++ lit "...");;
  all_records ← get_all_dns_records cf zone_id;
  print (lit "Searching for existing " ++ record_type ++ lit " record named '" ++
         record_name ++ lit "'...");;
  match find_dns_record record_name record_type all_records with
  | Some existing_record =>
      print (lit "Found record to delete (ID: " ++ rec_id existing_record ++ lit ").");;
      delete_dns_record cf zone_id (rec_id existing_record) record_name;;
      mret tt
  | None =>
      eprint (lit "Error: No " ++ record_type ++ lit " record found with the name '" ++
              record_name ++ lit "'. Nothing to delete.");;
      sys_exit 1
  end.

(** [d.isoformat() if d else None]: a [datetime] is always truthy. *)
Definition json_of_timestamp (d : option datetime) : json :=
  match d with
  | Some d => JStr (isoformat d)
  | None => JNull
  end.

(** The dict built for one record, keys in insertion order. *)
Definition output_record (record : DnsRecord) : json :=
  JDict [ (lit "id", JStr (rec_id record));
          (lit "type", JStr (rec_type record));
          (lit "name", JStr (rec_name record));
          (lit "content", JStr (rec_content record));
          (lit "proxied", json_of_opt_bool (rec_proxied record));
          (lit "ttl", JInt (rec_ttl record));
          (lit "created_on", json_of_timestamp (rec_created_on record));
          (lit "modified_on", json_of_timestamp (rec_modified_on record)) ].

Definition handle_list (cf : Cloudflare) (zone_id : pystr) : M unit :=
  print (lit "Fetching existing records for zone " ++ zone_id ++ lit "...");;
  all_records ← get_all_dns_records cf zone_id;
  match all_records with
  | [] => print (lit "No DNS records found for this zone.")
  | _ :: _ =>
      let output_records :=
        foldl (λ out record, out ++ [output_record record]) [] all_records in
      print (json_dumps (JList output_records))
  end.

(** ** [main] *)

(** [d[key]]: a missing key raises [KeyError], whose [str] is the
    [repr] of the key. *)
Definition subscript (d : gmap pystr pystr) (key : pystr) : M pystr :=
  match d !! key with
  | Some v => mret v
  | None => raise (OtherException (lit "'" ++ key ++ lit "'"))
  end.

(** [args.func(cf, zone_id, args)]. *)
Definition func (args : Namespace) (cf : Cloudflare) (zone_id : pystr) : M unit :=
  match args with
  | NsAdd a => handle_add_or_update cf zone_id a
  | NsRm a => handle_remove cf zone_id a
  | NsList => handle_list cf zone_id
  end.

(** [new_client email key] is what the constructor [Cloudflare(api_email=,
    api_key=)] does; it makes no call to the provider. *)
Definition main (environ : gmap pystr pystr)
    (new_client : pystr → pystr → response Cloudflare)
    (argv : list pystr) : M unit :=
  config ← load_config environ;
  cf ← try_except
         (api_email ← subscript config CLOUDFLARE_EMAIL;
          api_key ← subscript config CLOUDFLARE_API_KEY;
          match new_client api_email api_key with
          | Returns cf => mret cf
          | Raises e => raise e
          end)
         (λ e, eprint (lit "Error initializing Cloudflare client: " ++ str_of_exn e);;
               sys_exit 1);
  args ← parse_args argv;
  zone_id ← subscript config ZONE_ID;
  func args cf zone_id.

End Program.

Arguments DnsRecord : clear implicits.
Arguments Cloudflare : clear implicits.

(** * Vocabulary of the properties *)

Section Vocabulary.
Context {datetime : Type}.
Context (isoformat : datetime → pystr).
Implicit Types (records pre post : list (DnsRecord datetime)).
Implicit Types (r : DnsRecord datetime).

(** [r] has the queried name and type. *)
Definition matches (name record_type : pystr) r : Prop :=
  rec_name r = name ∧ rec_type r = record_type.

#[export] Instance matches_dec name record_type r :
  Decision (matches name record_type r).
Proof. unfold matches. apply _. Defined.

(** [r] is the first element of [records] that matches. *)
Definition first_match (name record_type : pystr) records r : Prop :=
  ∃ pre post, records = pre ++ r :: post ∧
              matches name record_type r ∧
              Forall (λ x, ¬ matches name record_type x) pre.

(** The field names of a printed record, in order. *)
Definition record_fields : list pystr :=
  [ lit "id"; lit "type"; lit "name"; lit "content"; lit "proxied";
    lit "ttl"; lit "created_on"; lit "modified_on" ].

(** A printed timestamp: the ISO text of the date, or null when unset. *)
Definition timestamp_json (d : option datetime) (j : json) : Prop :=
  match d with
  | Some d => j = JStr (isoformat d)
  | None => j = JNull
  end.

(** [o] is an object with exactly the fields [record_fields], its two
    timestamps being those of [r]. *)
Definition renders r (o : json) : Prop :=
  ∃ items, o = JDict items ∧
           items.*1 = record_fields ∧
           (∀ j, (lit "created_on", j) ∈ items → timestamp_json (rec_created_on r) j) ∧
           (∀ j, (lit "modified_on", j) ∈ items → timestamp_json (rec_modified_on r) j).

End Vocabulary.

Definition no_op_message : pystr :=
  lit "Record already exists with the correct IP and proxy status. No changes needed.".

(** A fatal end: one diagnostic on the error stream, then exit status 1. *)
Definition fatal {A} (m : M A) : Prop :=
  m.2 = Exit 1 ∧ ∃ diagnostic, printed Stderr m.1 = [diagnostic].

(** A required variable is blank when it is unset, empty or made of
    whitespace only. *)
Definition blank (value : option pystr) : bool :=
  match value with
  | None => true
  | Some v => forallb isspace v
  end.

Definition empty_variable_message (key : pystr) : pystr :=
  lit "Error: Environment variable " ++ key ++ lit " cannot be empty.".

(** The variables [load_config] reads, in the order it reads them. *)
Definition required : list pystr :=
  [CLOUDFLARE_EMAIL; CLOUDFLARE_API_KEY; ZONE_ID].

(** ** Vocabulary of the properties of whole runs *)

(** The zone a provider call is made on. *)
Definition call_zone (c : call) : pystr :=
  match c with
  | records_list zone_id
  | records_create zone_id _ _ _ _
  | records_update _ zone_id _ _ _ _
  | records_delete _ zone_id => zone_id
  end.

Definition is_mutation (c : call) : bool :=
  match c with records_list _ => false | _ => true end.

(** The calls of a run on [zone_id] are the fetch, then at most one
    mutation, on that zone. *)
Definition fetch_then_one (zone_id : pystr) (calls : list call) : Prop :=
  ∃ rest, calls = records_list zone_id :: rest ∧
          (length rest ≤ 1)%nat ∧
          Forall (λ c, is_mutation c = true ∧ call_zone c = zone_id) rest.

(** A run that ends by returning or with exit status 1, whose calls are
    the fetch then at most one mutation, and which writes at most one
    line on the error stream, exactly one when it exits. *)
Definition orderly (zone_id : pystr) (m : M unit) : Prop :=
  (m.2 = Ret tt ∨ m.2 = Exit 1) ∧
  fetch_then_one zone_id (api_calls m.1) ∧
  (length (printed Stderr m.1) ≤ 1)%nat ∧
  (m.2 = Exit 1 → length (printed Stderr m.1) = 1%nat).

(** A run of one operation: it returns or ends with exit status 1, makes
    the calls [calls], and writes at most one line on the error stream,
    exactly one when it exits. *)
Definition tidy {A} (calls : list call) (m : M A) : Prop :=
  ((∃ a, m.2 = Ret a) ∨ m.2 = Exit 1) ∧
  api_calls m.1 = calls ∧
  (length (printed Stderr m.1) ≤ 1)%nat ∧
  (m.2 = Exit 1 → length (printed Stderr m.1) = 1%nat).

(** The end of [m ;; return None]. *)
Definition discard {A} (o : outcome A) : outcome unit :=
  match o with
  | Ret _ => Ret tt
  | Exit code => Exit code
  | Raise e => Raise e
  | NotCovered => NotCovered
  end.

(** The diagnostic of a failed fetch. *)
Definition fetch_error_message (e : exn) : pystr :=
  match e with
  | APIError m => lit "Error fetching DNS records: " ++ m
  | OtherException m =>
      lit "An unexpected error occurred while fetching DNS records: " ++ m
  end.

Definition fetching_message (zone_id : pystr) : pystr :=
  lit "Fetching existing records for zone " ++ zone_id ++ lit "...".

Definition hint_message : pystr :=
  lit "Hint: A record with this name and type might already exist.".

(** * Sample data *)

Module Sample.

(** In the runs below a timestamp is held as its ISO text, and the
    serialiser is a stand-in: the theorems hold for every [isoformat]
    and every [json.dumps]. *)
Definition isoformat (d : pystr) : pystr := d.
Definition json_dumps (j : json) : pystr :=
  match j with
  | JList items => lit "[" ++ lit (if bool_decide (items = []) then "" else "...") ++ lit "]"
  | _ => lit "?"
  end.

Definition zone : pystr := lit "zone-1".
Definition host : pystr := lit "host.example.com".

Definition record (id content : string) (proxied : option bool) : DnsRecord pystr :=
  {| rec_id := lit id; rec_type := lit "A"; rec_name := host;
     rec_content := lit content; rec_proxied := proxied; rec_ttl := 1;
     rec_created_on := Some (lit "2024-05-01T12:00:00+00:00");
     rec_modified_on := None |}.

Definition r_old : DnsRecord pystr := record "id-old" "5.6.7.8" (Some false).
Definition r_same : DnsRecord pystr := record "id-same" "1.2.3.4" (Some false).
Definition r_unset : DnsRecord pystr := record "id-unset" "1.2.3.4" None.
Definition r_other : DnsRecord pystr :=
  {| rec_id := lit "id-other"; rec_type := lit "A"; rec_name := lit "other.example.com";
     rec_content := lit "9.9.9.9"; rec_proxied := Some true; rec_ttl := 300;
     rec_created_on := None; rec_modified_on := None |}.

(** A provider holding [rs] that accepts every mutation. *)
Definition provider (rs : list (DnsRecord pystr)) : Cloudflare pystr :=
  {| list_response := λ _, Returns rs;
     create_response := λ _ record_type name content proxied,
       Returns (Some {| rec_id := lit "id-new"; rec_type := record_type;
                        rec_name := name; rec_content := content;
                        rec_proxied := Some proxied; rec_ttl := 1;
                        rec_created_on := None; rec_modified_on := None |});
     update_response := λ _ _ _ _ _ _, Returns None;
     delete_response := λ dns_record_id _, Returns (Some {| del_id := dns_record_id |}) |}.

(** A provider holding [rs] whose mutations all raise [e]. *)
Definition refusing (rs : list (DnsRecord pystr)) (e : exn) : Cloudflare pystr :=
  {| list_response := λ _, Returns rs;
     create_response := λ _ _ _ _ _, Raises e;
     update_response := λ _ _ _ _ _ _, Raises e;
     delete_response := λ _ _, Raises e |}.

(** A provider holding [rs] whose delete answers with another identifier. *)
Definition confused (rs : list (DnsRecord pystr)) : Cloudflare pystr :=
  {| list_response := λ _, Returns rs;
     create_response := λ _ _ _ _ _, Returns None;
     update_response := λ _ _ _ _ _ _, Returns None;
     delete_response := λ _ _, Returns (Some {| del_id := lit "id-elsewhere" |}) |}.

(** A provider that cannot be reached: every call raises [e]. *)
Definition down (e : exn) : Cloudflare pystr :=
  {| list_response := λ _, Raises e;
     create_response := λ _ _ _ _ _, Raises e;
     update_response := λ _ _ _ _ _ _, Raises e;
     delete_response := λ _ _, Raises e |}.

Definition add_args : AddArgs :=
  {| add_record_name := host; add_ip_address := lit "1.2.3.4"; add_proxy := false |}.

Definition add_argv : list pystr := [lit "add"; host; lit "1.2.3.4"].

Definition rm_args : RmArgs := {| rm_record_name := lit "missing.example.com" |}.

Definition environ : gmap pystr pystr :=
  <[ZONE_ID := zone]>
    (<[CLOUDFLARE_API_KEY := lit "secret"]>
      (<[CLOUDFLARE_EMAIL := lit "ops@example.com"]> ∅)).

Definition environ_without_key : gmap pystr pystr :=
  <[ZONE_ID := lit "zone-1"]>
    (<[CLOUDFLARE_API_KEY := lit "   "]>
      (<[CLOUDFLARE_EMAIL := lit "ops@example.com"]> ∅)).

End Sample.

(** * Properties *)

(** ** Traces *)

Lemma api_calls_app (t1 t2 : list event) :
  api_calls (t1 ++ t2) = api_calls t1 ++ api_calls t2.
Proof. apply omap_app. Qed.

Lemma printed_app (s : stream) (t1 t2 : list event) :
  printed s (t1 ++ t2) = printed s t1 ++ printed s t2.
Proof. apply omap_app. Qed.

(** ** The matcher *)

Section Matcher.
Context {datetime : Type}.
Implicit Types (records pre post : list (DnsRecord datetime)).
Implicit Types (r : DnsRecord datetime).

Lemma find_dns_record_cons name record_type r records :
  find_dns_record name record_type (r :: records) =
    if decide (matches name record_type r) then Some r
    else find_dns_record name record_type records.
Proof.
  cbn [find_dns_record]. unfold matches.
  destruct (decide _) as [[-> ->]|Hn].
  - by rewrite !bool_decide_eq_true_2.
  - destruct (bool_decide_reflect (rec_name r = name)); [|done].
    destruct (bool_decide_reflect (rec_type r = record_type)); [|done].
    by destruct Hn.
Qed.

Lemma find_dns_record_Some name record_type records r :
  find_dns_record name record_type records = Some r ↔
  first_match name record_type records r.
Proof.
  induction records as [|x records IH].
  - split; [done|]. intros (pre & post & Heq & _). by destruct pre.
  - rewrite find_dns_record_cons. destruct (decide _) as [Hx|Hx].
    + split.
      * intros [= ->]. exists [], records. split; [done|]. split; [done|constructor].
      * intros (pre & post & Heq & Hr & Hpre). destruct pre as [|y pre].
        -- by injection Heq as ->.
        -- injection Heq as -> _. by apply Forall_cons_1 in Hpre as [? _].
    + rewrite IH. split.
      * intros (pre & post & -> & Hr & Hpre).
        exists (x :: pre), post. split; [done|]. split; [done|by constructor].
      * intros (pre & post & Heq & Hr & Hpre). destruct pre as [|y pre].
        -- injection Heq as -> _. done.
        -- injection Heq as -> ->. apply Forall_cons_1 in Hpre as [_ ?].
           by exists pre, post.
Qed.

Lemma find_dns_record_None name record_type records :
  find_dns_record name record_type records = None ↔
  Forall (λ x, ¬ matches name record_type x) records.
Proof.
  induction records as [|x records IH]; [by split|].
  rewrite find_dns_record_cons, Forall_cons. destruct (decide _); [|tauto].
  split; [done|]. by intros [? _].
Qed.

(** C1. For every list of records and every query (name, type), the
    matcher returns a record exactly when that record is the first
    element of the list whose name and type both equal the queried ones,
    and returns [None] exactly when no element of the list has both. *)
Theorem find_dns_record_first_or_none name record_type records :
  (∀ r, find_dns_record name record_type records = Some r ↔
        first_match name record_type records r) ∧
  (find_dns_record name record_type records = None ↔
   ∀ x, x ∈ records → ¬ (rec_name x = name ∧ rec_type x = record_type)).
Proof.
  split; [intros r; apply find_dns_record_Some|].
  rewrite find_dns_record_None, Forall_forall. done.
Qed.

End Matcher.

(** ** Runs of the operations *)

Section Runs.
Context {datetime : Type}.
Implicit Types (cf : Cloudflare datetime) (rs : list (DnsRecord datetime)).
Implicit Types (r : DnsRecord datetime).

Lemma get_all_dns_records_returns cf zone_id rs :
  list_response cf zone_id = Returns rs →
  get_all_dns_records cf zone_id = ([Api (records_list zone_id)], Ret rs).
Proof. intros H. unfold get_all_dns_records, api. by rewrite H. Qed.

Lemma get_all_dns_records_raises cf zone_id e :
  list_response cf zone_id = Raises e →
  ∃ diagnostic,
    get_all_dns_records cf zone_id =
      ([Api (records_list zone_id); Output Stderr diagnostic], Exit 1).
Proof.
  intros H. unfold get_all_dns_records, api. rewrite H.
  destruct e; eexists; reflexivity.
Qed.

Lemma update_dns_record_calls cf zone_id dns_record_id record_type name content proxied :
  api_calls (update_dns_record cf zone_id dns_record_id record_type name content proxied).1 =
    [records_update dns_record_id zone_id record_type name content proxied].
Proof.
  unfold update_dns_record, api.
  destruct (update_response _ _ _ _ _ _ _) as [?|[?|?]]; reflexivity.
Qed.

Lemma create_dns_record_calls cf zone_id record_type name content proxied :
  api_calls (create_dns_record cf zone_id record_type name content proxied).1 =
    [records_create zone_id record_type name content proxied].
Proof.
  unfold create_dns_record, api.
  destruct (create_response _ _ _ _ _ _) as [[?|]|[m|?]]; try reflexivity.
  cbn. by destruct (contains _ m).
Qed.

Lemma delete_dns_record_calls cf zone_id dns_record_id record_name :
  api_calls (delete_dns_record cf zone_id dns_record_id record_name).1 =
    [records_delete dns_record_id zone_id].
Proof.
  unfold delete_dns_record, api.
  destruct (delete_response _ _ _) as [d|[?|?]]; try reflexivity.
  cbn. by destruct (delete_confirmed d _).
Qed.

(** Two strings with different first characters differ. *)
Lemma head_differs (s1 s2 : pystr) : head s1 ≠ head s2 → s1 ≠ s2.
Proof. congruence. Qed.

(** The workflow up to its branch, when the fetch succeeds. *)
Lemma handle_add_or_update_fetched cf zone_id args rs :
  list_response cf zone_id = Returns rs →
  handle_add_or_update cf zone_id args =
    (print (lit "Fetching existing records for zone " ++ zone_id ++ lit "...");;
     emit (Api (records_list zone_id));;
     print (lit "Searching for existing " ++ lit "A" ++ lit " record named '" ++
            add_record_name args ++ lit "'...");;
     match find_dns_record (add_record_name args) (lit "A") rs with
     | Some existing_record =>
         print (lit "Found existing record (ID: " ++ rec_id existing_record ++
                lit ", IP: " ++ rec_content existing_record ++
                lit ", Proxied: " ++ str_of_opt_bool (rec_proxied existing_record) ++
                lit ").");;
         if bool_decide (rec_content existing_record = add_ip_address args) &&
            bool_decide (rec_proxied existing_record = Some (add_proxy args))
         then print no_op_message
         else update_dns_record cf zone_id (rec_id existing_record) (lit "A")
                (add_record_name args) (add_ip_address args) (add_proxy args);;
              mret tt
     | None =>
         print (lit "No existing " ++ lit "A" ++ lit " record found for '" ++
                add_record_name args ++ lit "'. Creating new record...");;
         create_dns_record cf zone_id (lit "A") (add_record_name args)
           (add_ip_address args) (add_proxy args);;
         mret tt
     end).
Proof.
  intros H. unfold handle_add_or_update.
  rewrite (get_all_dns_records_returns _ _ _ H). reflexivity.
Qed.

Lemma handle_add_or_update_no_op cf zone_id args rs r :
  list_response cf zone_id = Returns rs →
  find_dns_record (add_record_name args) (lit "A") rs = Some r →
  rec_content r = add_ip_address args →
  rec_proxied r = Some (add_proxy args) →
  handle_add_or_update cf zone_id args =
    ([ Output Stdout (lit "Fetching existing records for zone " ++ zone_id ++ lit "...");
       Api (records_list zone_id);
       Output Stdout (lit "Searching for existing " ++ lit "A" ++ lit " record named '" ++
                     add_record_name args ++ lit "'...");
       Output Stdout (lit "Found existing record (ID: " ++ rec_id r ++
                     lit ", IP: " ++ rec_content r ++ lit ", Proxied: " ++
                     str_of_opt_bool (rec_proxied r) ++ lit ").");
       Output Stdout no_op_message ], Ret tt).
Proof.
  intros Hl Hf Hc Hp. rewrite (handle_add_or_update_fetched _ _ _ _ Hl), Hf.
  rewrite !bool_decide_eq_true_2 by done. reflexivity.
Qed.

(** The trace of the update branch: the four lines of the workflow, then
    whatever [update_dns_record] does. *)
Lemma handle_add_or_update_update cf zone_id args rs r :
  list_response cf zone_id = Returns rs →
  find_dns_record (add_record_name args) (lit "A") rs = Some r →
  ¬ (rec_content r = add_ip_address args ∧ rec_proxied r = Some (add_proxy args)) →
  (handle_add_or_update cf zone_id args).1 =
    [ Output Stdout (lit "Fetching existing records for zone " ++ zone_id ++ lit "...");
      Api (records_list zone_id);
      Output Stdout (lit "Searching for existing " ++ lit "A" ++ lit " record named '" ++
                    add_record_name args ++ lit "'...");
      Output Stdout (lit "Found existing record (ID: " ++ rec_id r ++
                    lit ", IP: " ++ rec_content r ++ lit ", Proxied: " ++
                    str_of_opt_bool (rec_proxied r) ++ lit ").") ] ++
    (update_dns_record cf zone_id (rec_id r) (lit "A") (add_record_name args)
       (add_ip_address args) (add_proxy args)).1.
Proof.
  intros Hl Hf Hn. rewrite (handle_add_or_update_fetched _ _ _ _ Hl), Hf.
  replace (bool_decide _ && bool_decide _) with false.
  - destruct (update_dns_record _ _ _ _ _ _ _) as [t [?|?|?|]];
      cbn; by rewrite ?app_nil_r.
  - symmetry. apply andb_false_iff.
    destruct (bool_decide_reflect (rec_content r = add_ip_address args)); [|by left].
    right. apply bool_decide_eq_false_2. tauto.
Qed.

Lemma handle_add_or_update_create cf zone_id args rs :
  list_response cf zone_id = Returns rs →
  find_dns_record (add_record_name args) (lit "A") rs = None →
  (handle_add_or_update cf zone_id args).1 =
    [ Output Stdout (lit "Fetching existing records for zone " ++ zone_id ++ lit "...");
      Api (records_list zone_id);
      Output Stdout (lit "Searching for existing " ++ lit "A" ++ lit " record named '" ++
                    add_record_name args ++ lit "'...");
      Output Stdout (lit "No existing " ++ lit "A" ++ lit " record found for '" ++
                    add_record_name args ++ lit "'. Creating new record...") ] ++
    (create_dns_record cf zone_id (lit "A") (add_record_name args)
       (add_ip_address args) (add_proxy args)).1.
Proof.
  intros Hl Hf. rewrite (handle_add_or_update_fetched _ _ _ _ Hl), Hf.
  destruct (create_dns_record _ _ _ _ _ _) as [t [?|?|?|]];
    cbn; by rewrite ?app_nil_r.
Qed.

End Runs.

(** ** The command line *)

Lemma parse_args_add_proxy (argv : list pystr) (args : AddArgs) :
  parse_args argv = mret (NsAdd args) →
  lit "--proxy" ∉ argv →
  add_proxy args = false.
Proof.
  unfold parse_args. destruct argv as [|cmd rest]; [done|].
  intros H Hflag. apply not_elem_of_cons in Hflag as [_ Hflag].
  assert (existsb is_proxy_flag rest = false) as Hex.
  { apply not_true_is_false. intros (tok & Hin & Htok)%existsb_exists.
    apply bool_decide_eq_true_1 in Htok as ->.
    by apply Hflag, list_elem_of_In. }
  destruct (bool_decide (cmd = lit "add")).
  - destruct (forallb _ rest); [|done].
    destruct (filter _ rest) as [|? [|? [|? ?]]]; try done.
    injection H as <-. exact Hex.
  - destruct (bool_decide (cmd = lit "rm")).
    + destruct rest as [|? [|? ?]]; try done. by destruct (dashed _).
    + destruct (bool_decide (cmd = lit "list")); [|done].
      by destruct rest.
Qed.

(** ** The [add] workflow *)

Section Add.
Context {datetime : Type}.
Implicit Types (cf : Cloudflare datetime) (rs : list (DnsRecord datetime)).
Implicit Types (r : DnsRecord datetime).

(** C2 (as amended). When the fetch returns a record set whose first
    record matching the requested name with type A has the requested
    IP as content and the requested proxy flag as proxied, the add
    workflow returns normally having made no call but the fetch (no
    create, no update), and its last line is the no-changes message. *)
Theorem add_first_match_identical_is_no_op cf zone_id args rs r :
  list_response cf zone_id = Returns rs →
  first_match (add_record_name args) (lit "A") rs r →
  rec_content r = add_ip_address args →
  rec_proxied r = Some (add_proxy args) →
  ∃ t, handle_add_or_update cf zone_id args = (t, Ret tt) ∧
       api_calls t = [records_list zone_id] ∧
       creates t = [] ∧ updates t = [] ∧
       last (printed Stdout t) = Some no_op_message.
Proof.
  intros Hl Hf%find_dns_record_Some Hc Hp. eexists. split.
  - by apply (handle_add_or_update_no_op _ _ _ rs r).
  - done.
Qed.

(** C3 (as amended). When the fetch returns a record set whose first
    record matching the requested name with type A has a content other
    than the requested IP, the add workflow makes exactly one update
    call, carrying that record's identifier and the requested values,
    and no create call. *)
Theorem add_first_match_different_updates_once cf zone_id args rs r :
  list_response cf zone_id = Returns rs →
  first_match (add_record_name args) (lit "A") rs r →
  rec_content r ≠ add_ip_address args →
  let t := (handle_add_or_update cf zone_id args).1 in
  updates t = [records_update (rec_id r) zone_id (lit "A")
                 (add_record_name args) (add_ip_address args) (add_proxy args)] ∧
  creates t = [].
Proof.
  intros Hl Hf%find_dns_record_Some Hc t. subst t.
  rewrite (handle_add_or_update_update _ _ _ rs r) by tauto.
  unfold updates, creates.
  rewrite api_calls_app, update_dns_record_calls. done.
Qed.

(** C4. When the fetch returns a record set with no record matching the
    requested name with type A (an empty set for one), the add workflow
    makes exactly one create call, carrying the requested values, and
    no update call; and when the command line does not give [--proxy],
    that create call carries proxied = false. *)
Theorem add_without_match_creates_once cf zone_id argv args rs :
  parse_args argv = mret (NsAdd args) →
  list_response cf zone_id = Returns rs →
  (∀ x, x ∈ rs → ¬ (rec_name x = add_record_name args ∧ rec_type x = lit "A")) →
  let t := (handle_add_or_update cf zone_id args).1 in
  creates t = [records_create zone_id (lit "A") (add_record_name args)
                 (add_ip_address args) (add_proxy args)] ∧
  updates t = [] ∧
  (lit "--proxy" ∉ argv →
   creates t = [records_create zone_id (lit "A") (add_record_name args)
                  (add_ip_address args) false]).
Proof.
  intros Hparse Hl Hf t. subst t.
  apply Forall_forall, find_dns_record_None in Hf.
  rewrite (handle_add_or_update_create _ _ _ rs) by done.
  unfold updates, creates.
  rewrite api_calls_app, create_dns_record_calls.
  split; [done|]. split; [done|].
  intros Hflag. by rewrite (parse_args_add_proxy _ _ Hparse Hflag).
Qed.

(** C10. When the record that the matcher returns has its proxied field
    unset, the add workflow never takes the no-op branch, whatever the
    record's content and the requested flag: it makes exactly one update
    call, with that record's identifier, and never prints the no-changes
    message. *)
Theorem add_unset_proxied_always_updates cf zone_id args rs r :
  list_response cf zone_id = Returns rs →
  find_dns_record (add_record_name args) (lit "A") rs = Some r →
  rec_proxied r = None →
  let t := (handle_add_or_update cf zone_id args).1 in
  updates t = [records_update (rec_id r) zone_id (lit "A")
                 (add_record_name args) (add_ip_address args) (add_proxy args)] ∧
  no_op_message ∉ printed Stdout t.
Proof.
  intros Hl Hf Hp t. subst t.
  rewrite (handle_add_or_update_update _ _ _ rs r);
    [|done|done|by rewrite Hp; intros [_ ?]].
  split.
  - unfold updates. by rewrite api_calls_app, update_dns_record_calls.
  - rewrite printed_app. intros [H|H]%elem_of_app.
    + cbn in H. rewrite !elem_of_cons, elem_of_nil in H.
      destruct H as [H|[H|[H|[]]]];
        (eapply head_differs; [|exact H]); vm_compute; discriminate.
    + unfold update_dns_record, api in H.
      destruct (update_response _ _ _ _ _ _ _) as [?|[?|?]]; cbn in H;
        rewrite ?elem_of_cons, elem_of_nil in H;
        repeat (destruct H as [H|H]; [eapply head_differs; [|exact H]; vm_compute; discriminate|]);
        done.
Qed.

End Add.

(** ** The [rm] workflow and the mutators *)

Section Remove.
Context {datetime : Type}.
Implicit Types (cf : Cloudflare datetime) (rs : list (DnsRecord datetime)).

(** C5. When the fetch returns a record set with no record matching the
    requested name with type A, the rm workflow prints on the error
    stream a line naming the absent record, ends the process with exit
    status 1, and makes no delete call. *)
Theorem rm_without_match_fails cf zone_id args rs :
  list_response cf zone_id = Returns rs →
  (∀ x, x ∈ rs → ¬ (rec_name x = rm_record_name args ∧ rec_type x = lit "A")) →
  handle_remove cf zone_id args =
    ([ Output Stdout (lit "Fetching existing records for zone " ++ zone_id ++ lit "...");
       Api (records_list zone_id);
       Output Stdout (lit "Searching for existing " ++ lit "A" ++ lit " record named '" ++
                     rm_record_name args ++ lit "'...");
       Output Stderr (lit "Error: No " ++ lit "A" ++ lit " record found with the name '" ++
                     rm_record_name args ++ lit "'. Nothing to delete.") ],
     Exit 1) ∧
  deletes (handle_remove cf zone_id args).1 = [] ∧
  exit_status (handle_remove cf zone_id args).2 = Some 1.
Proof.
  intros Hl Hf. apply Forall_forall, find_dns_record_None in Hf.
  unfold handle_remove.
  rewrite (get_all_dns_records_returns _ _ _ Hl). cbn. by rewrite Hf.
Qed.

(** C8. A delete call that returns without raising, but returns nothing
    or an identifier other than the requested one, makes
    [delete_dns_record] print a warning on the error stream and return
    false, the process going on.  Every exception raised by the provider
    in delete, create, update or list is fatal: one diagnostic on the
    error stream, then exit status 1. *)
Theorem delete_mismatch_soft_other_errors_fatal cf zone_id :
  (∀ dns_record_id record_name delete_result,
     delete_response cf dns_record_id zone_id = Returns delete_result →
     delete_confirmed delete_result dns_record_id = false →
     delete_dns_record cf zone_id dns_record_id record_name =
       ([ Output Stdout (lit "Attempting to delete record " ++ record_name ++
                        lit " (ID: " ++ dns_record_id ++ lit ")...");
          Api (records_delete dns_record_id zone_id);
          Output Stderr (lit "Warning: Delete operation completed but response format was unexpected for " ++
                        record_name ++ lit ". Please verify.") ],
        Ret false)) ∧
  (∀ dns_record_id record_name e,
     delete_response cf dns_record_id zone_id = Raises e →
     fatal (delete_dns_record cf zone_id dns_record_id record_name)) ∧
  (∀ record_type name content proxied e,
     create_response cf zone_id record_type name content proxied = Raises e →
     fatal (create_dns_record cf zone_id record_type name content proxied)) ∧
  (∀ dns_record_id record_type name content proxied e,
     update_response cf dns_record_id zone_id record_type name content proxied = Raises e →
     fatal (update_dns_record cf zone_id dns_record_id record_type name content proxied)) ∧
  (∀ e, list_response cf zone_id = Raises e →
        fatal (get_all_dns_records cf zone_id)).
Proof.
  split; [|split; [|split; [|split]]].
  - intros ??? H Hc. unfold delete_dns_record, api. rewrite H. cbn. by rewrite Hc.
  - intros ?? e H. unfold fatal, delete_dns_record, api. rewrite H.
    destruct e; split; by eexists.
  - intros ???? e H. unfold fatal, create_dns_record, api. rewrite H.
    destruct e as [m|m]; [|split; by eexists].
    cbn. destruct (contains _ m); split; by eexists.
  - intros ????? e H. unfold fatal, update_dns_record, api. rewrite H.
    destruct e; split; by eexists.
  - intros e H. unfold fatal, get_all_dns_records, api. rewrite H.
    destruct e; split; by eexists.
Qed.

(** The soft failure of delete leaves the rm workflow to return: the
    process ends with status 0. *)
Lemma rm_delete_mismatch_status cf zone_id args rs r delete_result :
  list_response cf zone_id = Returns rs →
  find_dns_record (rm_record_name args) (lit "A") rs = Some r →
  delete_response cf (rec_id r) zone_id = Returns delete_result →
  delete_confirmed delete_result (rec_id r) = false →
  exit_status (handle_remove cf zone_id args).2 = Some 0.
Proof.
  intros Hl Hf Hd Hc. unfold handle_remove.
  rewrite (get_all_dns_records_returns _ _ _ Hl). cbn. rewrite Hf.
  unfold delete_dns_record, api. rewrite Hd. cbn. by rewrite Hc.
Qed.

(** C9. When create fails with a provider error whose text contains
    [already exists], the hint that follows the diagnostic is printed
    on standard output, not on the error stream. *)
Theorem create_already_exists_hint_on_stdout
    cf zone_id record_type name content proxied m :
  create_response cf zone_id record_type name content proxied = Raises (APIError m) →
  contains (lit "already exists") m = true →
  create_dns_record cf zone_id record_type name content proxied =
    ([ Output Stdout (lit "Attempting to create " ++ record_type ++ lit " record for " ++
                     name ++ lit " -> " ++ content ++ lit " (Proxied: " ++
                     str_of_bool proxied ++ lit ")...");
       Api (records_create zone_id record_type name content proxied);
       Output Stderr (lit "Error creating DNS record: " ++ m);
       Output Stdout (lit "Hint: A record with this name and type might already exist.") ],
     Exit 1).
Proof.
  intros H Hm. unfold create_dns_record, api. rewrite H. cbn. by rewrite Hm.
Qed.

End Remove.

(** ** The [list] workflow *)

Section Listing.
Context {datetime : Type}.
Context (isoformat : datetime → pystr).
Context (json_dumps : json → pystr).
Implicit Types (cf : Cloudflare datetime) (rs : list (DnsRecord datetime)).
Implicit Types (r : DnsRecord datetime).

(** The loop that appends one dict per record builds the list of dicts. *)
Lemma output_records_loop rs (out : list json) :
  foldl (λ out record, out ++ [output_record isoformat record]) out rs =
    out ++ (output_record isoformat <$> rs).
Proof.
  revert out. induction rs as [|r rs IH]; intros out; cbn.
  - by rewrite app_nil_r.
  - by rewrite IH, <-app_assoc.
Qed.

Lemma output_record_renders r : renders isoformat r (output_record isoformat r).
Proof.
  eexists. split; [reflexivity|]. split; [reflexivity|].
  split; intros j Hj; rewrite !elem_of_cons, elem_of_nil in Hj;
    repeat (destruct Hj as [Hj|Hj];
            [ first [ exfalso; apply (f_equal fst) in Hj; vm_compute in Hj; discriminate
                    | apply (f_equal snd) in Hj; cbn in Hj; subst j;
                      unfold json_of_timestamp, timestamp_json;
                      by destruct (rec_created_on r), (rec_modified_on r) ] |]);
    done.
Qed.

(** C7. When the fetch returns the empty record set, the list workflow
    prints the no-records line on standard output and no array.  When
    it returns a non-empty set, the workflow prints on standard output
    the serialisation of one array with as many elements as records
    fetched, the i-th being an object with exactly the fields id, type,
    name, content, proxied, ttl, created_on, modified_on, whose
    timestamps are the ISO text of the record's dates, or null when
    unset. *)
Theorem list_prints_message_or_array cf zone_id rs :
  list_response cf zone_id = Returns rs →
  (rs = [] →
   handle_list isoformat json_dumps cf zone_id =
     ([ Output Stdout (lit "Fetching existing records for zone " ++ zone_id ++ lit "...");
        Api (records_list zone_id);
        Output Stdout (lit "No DNS records found for this zone.") ], Ret tt)) ∧
  (rs ≠ [] →
   ∃ output_records,
     handle_list isoformat json_dumps cf zone_id =
       ([ Output Stdout (lit "Fetching existing records for zone " ++ zone_id ++ lit "...");
          Api (records_list zone_id);
          Output Stdout (json_dumps (JList output_records)) ], Ret tt) ∧
     length output_records = length rs ∧
     Forall2 (renders isoformat) rs output_records).
Proof.
  intros Hl. unfold handle_list.
  rewrite (get_all_dns_records_returns _ _ _ Hl). split.
  - by intros ->.
  - intros Hne. destruct rs as [|r rs]; [done|].
    cbn. rewrite output_records_loop.
    change ([output_record isoformat r] ++ (output_record isoformat <$> rs))
      with (output_record isoformat <$> r :: rs).
    eexists. split; [reflexivity|]. split.
    + by rewrite length_fmap.
    + apply Forall2_fmap_r, Forall_Forall2_diag, Forall_forall.
      intros ??. apply output_record_renders.
Qed.

End Listing.

(** ** Configuration *)

(** What [lstrip] leaves is empty or starts with a character that is
    not a space. *)
Lemma lstrip_head (s : pystr) :
  lstrip s = [] ∨ ∃ c s', lstrip s = c :: s' ∧ isspace c = false.
Proof.
  induction s as [|c s IH]; [by left|]. cbn.
  destruct (isspace c) eqn:Hc; [done|]. right. by exists c, s.
Qed.

Lemma lstrip_nil (s : pystr) : lstrip s = [] ↔ forallb isspace s = true.
Proof.
  induction s as [|c s IH]; [done|]. cbn.
  destruct (isspace c); [done|]. by split.
Qed.

(** [strip] leaves nothing exactly of the strings made of spaces only,
    the empty string among them. *)
Lemma strip_nil (s : pystr) : strip s = [] ↔ forallb isspace s = true.
Proof.
  unfold strip, rstrip. split.
  - intros H. apply lstrip_nil.
    destruct (lstrip_head s) as [Hs|(c & s' & Hs & Hc)]; [done|].
    rewrite Hs in H. apply (f_equal reverse) in H.
    rewrite reverse_involutive, reverse_nil in H.
    rewrite reverse_cons in H.
    destruct (lstrip_head (reverse s' ++ [c])) as [Hn|(c' & s'' & Hn & Hc')].
    + apply lstrip_nil in Hn. rewrite forallb_app in Hn. cbn in Hn.
      rewrite Hc in Hn. by destruct (forallb _ _).
    + rewrite Hn in H. by destruct (reverse _).
  - intros H%lstrip_nil. by rewrite H.
Qed.

Lemma get_env_blank (environ : gmap pystr pystr) (key : pystr) :
  blank (environ !! key) = true →
  get_env environ key = ([Output Stderr (empty_variable_message key)], Exit 1).
Proof.
  unfold get_env, blank. destruct (environ !! key) as [v|]; [|done].
  intros H%strip_nil. by rewrite bool_decide_eq_true_2.
Qed.

Lemma get_env_set (environ : gmap pystr pystr) (key : pystr) :
  blank (environ !! key) = false →
  ∃ v, environ !! key = Some v ∧ get_env environ key = ([], Ret v).
Proof.
  unfold get_env, blank. destruct (environ !! key) as [v|]; [|done].
  intros H. exists v. split; [done|]. rewrite bool_decide_eq_false_2; [done|].
  rewrite strip_nil. by rewrite H.
Qed.

Lemma required_distinct :
  CLOUDFLARE_EMAIL ≠ CLOUDFLARE_API_KEY ∧ CLOUDFLARE_EMAIL ≠ ZONE_ID ∧
  CLOUDFLARE_API_KEY ≠ ZONE_ID.
Proof. repeat split; intros H; vm_compute in H; discriminate. Qed.

(** The dict that [load_config] builds, read back at its three keys. *)
Lemma config_lookup (email api_key zone_id : pystr) :
  let config : gmap pystr pystr :=
    <[ZONE_ID := zone_id]>
      (<[CLOUDFLARE_API_KEY := api_key]> (<[CLOUDFLARE_EMAIL := email]> ∅)) in
  config !! CLOUDFLARE_EMAIL = Some email ∧
  config !! CLOUDFLARE_API_KEY = Some api_key ∧
  config !! ZONE_ID = Some zone_id.
Proof.
  destruct required_distinct as (H1 & H2 & H3). intros config. subst config.
  split; [|split].
  - rewrite lookup_insert_ne by (by symmetry).
    rewrite lookup_insert_ne by (by symmetry). apply lookup_insert_eq.
  - rewrite lookup_insert_ne by (by symmetry). apply lookup_insert_eq.
  - apply lookup_insert_eq.
Qed.

Section Main.
Context {datetime : Type}.
Context (isoformat : datetime → pystr).
Context (json_dumps : json → pystr).

(** C6 (as amended). In every environment in which one of the three
    required variables is unset, empty or whitespace-only, the process
    prints on the error stream the message naming the first such
    variable, in the order email, API key, zone identifier, and nothing
    else, and ends with exit status 1 without any call to the provider,
    whatever the command line. *)
Theorem blank_variable_stops_before_network
    (environ : gmap pystr pystr)
    (new_client : pystr → pystr → response (Cloudflare datetime))
    (argv : list pystr) (pre post : list pystr) (key : pystr) :
  required = pre ++ key :: post →
  Forall (λ k, blank (environ !! k) = false) pre →
  blank (environ !! key) = true →
  let run := main isoformat json_dumps environ new_client argv in
  run = ([Output Stderr (empty_variable_message key)], Exit 1) ∧
  api_calls run.1 = [] ∧
  exit_status run.2 = Some 1.
Proof.
  intros Hreq Hpre Hkey run.
  assert (run = ([Output Stderr (empty_variable_message key)], Exit 1)) as ->;
    [|done].
  subst run. unfold main, load_config, required in *.
  destruct pre as [|k1 [|k2 [|k3 pre]]]; simplify_eq/=.
  - by rewrite (get_env_blank _ _ Hkey).
  - apply Forall_cons_1 in Hpre as [(v1 & _ & ->)%get_env_set _].
    by rewrite (get_env_blank _ _ Hkey).
  - apply Forall_cons_1 in Hpre as [(v1 & _ & ->)%get_env_set Hpre].
    apply Forall_cons_1 in Hpre as [(v2 & _ & ->)%get_env_set _].
    by rewrite (get_env_blank _ _ Hkey).
  - by destruct pre.
Qed.

(** With its three variables set and the client built, [main] parses
    the command line and runs the chosen workflow on the zone. *)
Lemma main_configured (environ : gmap pystr pystr)
    (new_client : pystr → pystr → response (Cloudflare datetime))
    (argv : list pystr) (email api_key zone_id : pystr) cf :
  environ !! CLOUDFLARE_EMAIL = Some email → blank (Some email) = false →
  environ !! CLOUDFLARE_API_KEY = Some api_key → blank (Some api_key) = false →
  environ !! ZONE_ID = Some zone_id → blank (Some zone_id) = false →
  new_client email api_key = Returns cf →
  main isoformat json_dumps environ new_client argv =
    (args ← parse_args argv; func isoformat json_dumps args cf zone_id).
Proof.
  intros He He' Hk Hk' Hz Hz' Hcf. unfold main, load_config.
  destruct (get_env_set environ CLOUDFLARE_EMAIL) as (? & ? & ->); [by rewrite He|].
  destruct (get_env_set environ CLOUDFLARE_API_KEY) as (? & ? & ->); [by rewrite Hk|].
  destruct (get_env_set environ ZONE_ID) as (? & ? & ->); [by rewrite Hz|].
  simplify_eq. cbn. unfold subscript.
  destruct (config_lookup email api_key zone_id) as (-> & -> & ->).
  cbn. rewrite Hcf. cbn.
  destruct (parse_args argv) as [t [ns| | |]]; cbn; [|done..].
  by destruct (func _ _ _ _ _) as [t' o].
Qed.

End Main.


(** * Concrete runs *)

Example parse_add : parse_args Sample.add_argv = mret (NsAdd Sample.add_args).
Proof. vm_compute. reflexivity. Qed.

Example parse_add_proxy :
  parse_args [lit "add"; Sample.host; lit "--proxy"; lit "1.2.3.4"] =
    mret (NsAdd {| add_record_name := Sample.host; add_ip_address := lit "1.2.3.4";
                   add_proxy := true |}).
Proof. vm_compute. reflexivity. Qed.

Example parse_abbreviated_flag :
  parse_args [lit "add"; Sample.host; lit "1.2.3.4"; lit "--pro"] = ([], NotCovered).
Proof. vm_compute. reflexivity. Qed.

Example strip_spaces : strip (lit "  a b  ") = lit "a b".
Proof. vm_compute. reflexivity. Qed.

Example strip_blank : strip [0x20; 0x09; 0xA0; 0x3000]%N = [].
Proof. vm_compute. reflexivity. Qed.

Example contains_yes : contains (lit "already exists") (lit "Record already exists.") = true.
Proof. vm_compute. reflexivity. Qed.

Example contains_no : contains (lit "already exists") (lit "Invalid zone") = false.
Proof. vm_compute. reflexivity. Qed.

Example lookup_key : Sample.environ_without_key !! CLOUDFLARE_API_KEY = Some (lit "   ").
Proof. vm_compute. reflexivity. Qed.

Example find_first_of_two :
  find_dns_record Sample.host (lit "A") [Sample.r_other; Sample.r_old; Sample.r_same] =
    Some Sample.r_old.
Proof. vm_compute. reflexivity. Qed.

Example find_other_type :
  find_dns_record Sample.host (lit "AAAA") [Sample.r_other; Sample.r_old] = None.
Proof. vm_compute. reflexivity. Qed.

(** Whole runs of [main]: [add] on a zone without the host, then [rm]
    of a host that is there, then [rm] with no client to be had. *)
Example main_add_run :
  main Sample.isoformat Sample.json_dumps Sample.environ
    (λ _ _, Returns (Sample.provider [Sample.r_other])) Sample.add_argv =
    ([ Output Stdout (lit "Fetching existing records for zone zone-1...");
       Api (records_list Sample.zone);
       Output Stdout (lit "Searching for existing A record named 'host.example.com'...");
       Output Stdout (lit "No existing A record found for 'host.example.com'. Creating new record...");
       Output Stdout (lit "Attempting to create A record for host.example.com -> 1.2.3.4 (Proxied: False)...");
       Api (records_create Sample.zone (lit "A") Sample.host (lit "1.2.3.4") false);
       Output Stdout (lit "Successfully created record (ID: id-new).") ],
     Ret tt).
Proof. vm_compute. reflexivity. Qed.

Example main_rm_run :
  main Sample.isoformat Sample.json_dumps Sample.environ
    (λ _ _, Returns (Sample.provider [Sample.r_old])) [lit "rm"; Sample.host] =
    ([ Output Stdout (lit "Fetching existing records for zone zone-1...");
       Api (records_list Sample.zone);
       Output Stdout (lit "Searching for existing A record named 'host.example.com'...");
       Output Stdout (lit "Found record to delete (ID: id-old).");
       Output Stdout (lit "Attempting to delete record host.example.com (ID: id-old)...");
       Api (records_delete (lit "id-old") Sample.zone);
       Output Stdout (lit "Successfully deleted record host.example.com.") ],
     Ret tt).
Proof. vm_compute. reflexivity. Qed.

Example main_no_client_run :
  main Sample.isoformat Sample.json_dumps Sample.environ
    (λ _ _, Raises (OtherException (lit "bad key")) : response (Cloudflare pystr))
    [lit "rm"; Sample.host] =
    ([ Output Stderr (lit "Error initializing Cloudflare client: bad key") ], Exit 1).
Proof. vm_compute. reflexivity. Qed.

(** ** The theorems at concrete inputs *)

(** The identical record comes first: nothing is changed. *)
Lemma add_identical_run :
  ∃ t, handle_add_or_update (Sample.provider [Sample.r_same; Sample.r_old])
         Sample.zone Sample.add_args = (t, Ret tt) ∧
       api_calls t = [records_list Sample.zone] ∧
       creates t = [] ∧ updates t = [] ∧
       last (printed Stdout t) = Some no_op_message.
Proof.
  apply (add_first_match_identical_is_no_op
           (Sample.provider [Sample.r_same; Sample.r_old]) Sample.zone
           Sample.add_args [Sample.r_same; Sample.r_old] Sample.r_same).
  - reflexivity.
  - exists [], [Sample.r_old]. split; [reflexivity|].
    split; [split; reflexivity|constructor].
  - reflexivity.
  - reflexivity.
Defined.

(** An identical record that follows a different one with the same name
    and type is never looked at: the first one is updated. *)
Lemma add_identical_behind_duplicate_updates :
  ¬ (∀ (cf : Cloudflare pystr) zone_id args rs r,
       list_response cf zone_id = Returns rs →
       r ∈ rs →
       rec_name r = add_record_name args ∧ rec_type r = lit "A" →
       rec_content r = add_ip_address args →
       rec_proxied r = Some (add_proxy args) →
       creates (handle_add_or_update cf zone_id args).1 = [] ∧
       updates (handle_add_or_update cf zone_id args).1 = []).
Proof.
  intros H.
  destruct (H (Sample.provider [Sample.r_old; Sample.r_same]) Sample.zone
              Sample.add_args [Sample.r_old; Sample.r_same] Sample.r_same)
    as [_ Hu].
  - reflexivity.
  - apply elem_of_cons. right. apply elem_of_cons. by left.
  - split; reflexivity.
  - reflexivity.
  - reflexivity.
  - vm_compute in Hu. discriminate.
Qed.

(** The record with another content comes first: it is updated, under
    its own identifier. *)
Lemma add_different_run :
  let t := (handle_add_or_update (Sample.provider [Sample.r_old; Sample.r_same])
              Sample.zone Sample.add_args).1 in
  updates t = [records_update (lit "id-old") Sample.zone (lit "A") Sample.host
                 (lit "1.2.3.4") false] ∧
  creates t = [].
Proof.
  apply (add_first_match_different_updates_once
           (Sample.provider [Sample.r_old; Sample.r_same]) Sample.zone
           Sample.add_args [Sample.r_old; Sample.r_same] Sample.r_old).
  - reflexivity.
  - exists [], [Sample.r_same]. split; [reflexivity|].
    split; [split; reflexivity|constructor].
  - intros H. vm_compute in H. discriminate.
Defined.

(** A record with another content that follows an identical one with
    the same name and type is left as it is: no update call is made. *)
Lemma add_different_behind_duplicate_is_kept :
  ¬ (∀ (cf : Cloudflare pystr) zone_id args rs r,
       list_response cf zone_id = Returns rs →
       r ∈ rs →
       rec_name r = add_record_name args ∧ rec_type r = lit "A" →
       rec_content r ≠ add_ip_address args →
       updates (handle_add_or_update cf zone_id args).1 =
         [records_update (rec_id r) zone_id (lit "A") (add_record_name args)
            (add_ip_address args) (add_proxy args)] ∧
       creates (handle_add_or_update cf zone_id args).1 = []).
Proof.
  intros H.
  destruct (H (Sample.provider [Sample.r_same; Sample.r_old]) Sample.zone
              Sample.add_args [Sample.r_same; Sample.r_old] Sample.r_old)
    as [Hu _].
  - reflexivity.
  - apply elem_of_cons. right. apply elem_of_cons. by left.
  - split; reflexivity.
  - intros Hc. vm_compute in Hc. discriminate.
  - vm_compute in Hu. discriminate.
Qed.

(** [add host.example.com 1.2.3.4] on a zone without that host. *)
Lemma add_create_run :
  let t := (handle_add_or_update (Sample.provider [Sample.r_other])
              Sample.zone Sample.add_args).1 in
  creates t = [records_create Sample.zone (lit "A") Sample.host (lit "1.2.3.4") false] ∧
  updates t = [] ∧
  (lit "--proxy" ∉ Sample.add_argv →
   creates t = [records_create Sample.zone (lit "A") Sample.host (lit "1.2.3.4") false]).
Proof.
  apply (add_without_match_creates_once (Sample.provider [Sample.r_other])
           Sample.zone Sample.add_argv Sample.add_args [Sample.r_other]).
  - vm_compute. reflexivity.
  - reflexivity.
  - intros x Hx [Hn _]. apply list_elem_of_singleton in Hx. subst x.
    vm_compute in Hn. discriminate.
Defined.

(** A matched record whose proxied field is unset is updated although
    its content is the requested one and [--proxy] is off. *)
Lemma add_unset_proxied_run :
  let t := (handle_add_or_update (Sample.provider [Sample.r_unset])
              Sample.zone Sample.add_args).1 in
  updates t = [records_update (lit "id-unset") Sample.zone (lit "A") Sample.host
                 (lit "1.2.3.4") false] ∧
  no_op_message ∉ printed Stdout t.
Proof.
  apply (add_unset_proxied_always_updates (Sample.provider [Sample.r_unset])
           Sample.zone Sample.add_args [Sample.r_unset] Sample.r_unset).
  - reflexivity.
  - vm_compute. reflexivity.
  - reflexivity.
Defined.

(** [rm missing.example.com] on a zone without that host. *)
Lemma rm_missing_run :
  exit_status (handle_remove (Sample.provider [Sample.r_old; Sample.r_other])
                 Sample.zone Sample.rm_args).2 = Some 1 ∧
  deletes (handle_remove (Sample.provider [Sample.r_old; Sample.r_other])
             Sample.zone Sample.rm_args).1 = [].
Proof.
  destruct (rm_without_match_fails (Sample.provider [Sample.r_old; Sample.r_other])
              Sample.zone Sample.rm_args [Sample.r_old; Sample.r_other])
    as (_ & Hd & He).
  - reflexivity.
  - intros x Hx [Hn _]. apply elem_of_cons in Hx as [->|Hx].
    + vm_compute in Hn. discriminate.
    + apply list_elem_of_singleton in Hx. subst x. vm_compute in Hn. discriminate.
  - split; [exact He|exact Hd].
Defined.

(** The API key is made of spaces: the process stops on it, the email
    before it being set. *)
Lemma blank_api_key_run :
  let run := main Sample.isoformat Sample.json_dumps Sample.environ_without_key
               (λ _ _, Returns (Sample.provider [])) Sample.add_argv in
  run = ([Output Stderr (empty_variable_message CLOUDFLARE_API_KEY)], Exit 1) ∧
  api_calls run.1 = [] ∧
  exit_status run.2 = Some 1.
Proof.
  apply (blank_variable_stops_before_network Sample.isoformat Sample.json_dumps
           Sample.environ_without_key (λ _ _, Returns (Sample.provider []))
           Sample.add_argv [CLOUDFLARE_EMAIL] [ZONE_ID] CLOUDFLARE_API_KEY).
  - reflexivity.
  - constructor; [vm_compute; reflexivity|constructor].
  - vm_compute. reflexivity.
Defined.

(** With nothing set, the only message names the email variable: the
    zone identifier, unset as well, is not named. *)
Lemma unset_zone_is_not_named_after_unset_email :
  ¬ (∀ (environ : gmap pystr pystr)
       (new_client : pystr → pystr → response (Cloudflare pystr))
       (argv : list pystr) (key : pystr),
       key ∈ required →
       blank (environ !! key) = true →
       let run := main Sample.isoformat Sample.json_dumps environ new_client argv in
       Output Stderr (empty_variable_message key) ∈ run.1 ∧
       (∃ code, run.2 = Exit code ∧ code ≠ 0) ∧
       api_calls run.1 = []).
Proof.
  intros H.
  destruct (H ∅ (λ _ _, Returns (Sample.provider [])) Sample.add_argv ZONE_ID)
    as [Hin _].
  - unfold required. rewrite !elem_of_cons. tauto.
  - reflexivity.
  - vm_compute in Hin. apply list_elem_of_singleton in Hin.
    discriminate.
Qed.

(** [list] on a zone of two records. *)
Lemma list_two_records_run :
  ∃ output_records,
    handle_list Sample.isoformat Sample.json_dumps
      (Sample.provider [Sample.r_old; Sample.r_other]) Sample.zone =
      ([ Output Stdout (lit "Fetching existing records for zone " ++ Sample.zone ++ lit "...");
         Api (records_list Sample.zone);
         Output Stdout (Sample.json_dumps (JList output_records)) ], Ret tt) ∧
    length output_records = 2%nat ∧
    Forall2 (renders Sample.isoformat) [Sample.r_old; Sample.r_other] output_records.
Proof.
  destruct (list_prints_message_or_array Sample.isoformat Sample.json_dumps
              (Sample.provider [Sample.r_old; Sample.r_other]) Sample.zone
              [Sample.r_old; Sample.r_other]) as [_ H].
  - reflexivity.
  - apply H. discriminate.
Defined.

(** [list] on an empty zone. *)
Example list_empty_run :
  handle_list Sample.isoformat Sample.json_dumps (Sample.provider []) Sample.zone =
    ([ Output Stdout (lit "Fetching existing records for zone " ++ Sample.zone ++ lit "...");
       Api (records_list Sample.zone);
       Output Stdout (lit "No DNS records found for this zone.") ], Ret tt).
Proof. vm_compute. reflexivity. Qed.

(** A delete answered with another identifier: a warning, [False], and
    the rm workflow returns; a delete that raises: exit status 1. *)
Lemma delete_mismatch_run :
  delete_dns_record (Sample.confused [Sample.r_old]) Sample.zone (lit "id-old") Sample.host =
    ([ Output Stdout (lit "Attempting to delete record " ++ Sample.host ++
                     lit " (ID: " ++ lit "id-old" ++ lit ")...");
       Api (records_delete (lit "id-old") Sample.zone);
       Output Stderr (lit "Warning: Delete operation completed but response format was unexpected for " ++
                     Sample.host ++ lit ". Please verify.") ],
     Ret false) ∧
  fatal (delete_dns_record (Sample.refusing [Sample.r_old] (APIError (lit "Forbidden")))
           Sample.zone (lit "id-old") Sample.host).
Proof.
  split.
  - apply (proj1 (delete_mismatch_soft_other_errors_fatal
                    (Sample.confused [Sample.r_old]) Sample.zone)
             (lit "id-old") Sample.host (Some {| del_id := lit "id-elsewhere" |})).
    + reflexivity.
    + vm_compute. reflexivity.
  - apply (proj1 (proj2 (delete_mismatch_soft_other_errors_fatal
                    (Sample.refusing [Sample.r_old] (APIError (lit "Forbidden")))
                    Sample.zone))
             (lit "id-old") Sample.host (APIError (lit "Forbidden"))).
    reflexivity.
Defined.

(** The provider refuses a create because the record exists: the hint
    lands on standard output. *)
Lemma create_hint_run :
  create_dns_record
    (Sample.refusing [] (APIError (lit "An identical record already exists.")))
    Sample.zone (lit "A") Sample.host (lit "1.2.3.4") false =
    ([ Output Stdout (lit "Attempting to create " ++ lit "A" ++ lit " record for " ++
                     Sample.host ++ lit " -> " ++ lit "1.2.3.4" ++ lit " (Proxied: " ++
                     str_of_bool false ++ lit ")...");
       Api (records_create Sample.zone (lit "A") Sample.host (lit "1.2.3.4") false);
       Output Stderr (lit "Error creating DNS record: " ++
                     lit "An identical record already exists.");
       Output Stdout (lit "Hint: A record with this name and type might already exist.") ],
     Exit 1).
Proof.
  apply (create_already_exists_hint_on_stdout
           (Sample.refusing [] (APIError (lit "An identical record already exists.")))
           Sample.zone (lit "A") Sample.host (lit "1.2.3.4") false
           (lit "An identical record already exists.")).
  - reflexivity.
  - vm_compute. reflexivity.
Defined.

(** * Further properties *)

(** ** The mutators and the fetch, one by one *)

Section Operations.
Context {datetime : Type}.
Implicit Types (cf : Cloudflare datetime) (rs : list (DnsRecord datetime)).
Implicit Types (r : DnsRecord datetime).

Local Ltac tidy_done :=
  unfold tidy; cbn; split; [by eauto|]; split; [done|]; split; [lia|done].

Lemma get_all_dns_records_tidy cf zone_id :
  tidy [records_list zone_id] (get_all_dns_records cf zone_id).
Proof.
  unfold get_all_dns_records, api.
  destruct (list_response cf zone_id) as [rs|[m|m]]; tidy_done.
Qed.

Lemma create_dns_record_tidy cf zone_id record_type name content proxied :
  tidy [records_create zone_id record_type name content proxied]
       (create_dns_record cf zone_id record_type name content proxied).
Proof.
  unfold create_dns_record, api.
  destruct (create_response _ _ _ _ _ _) as [[r|]|[m|m]]; try tidy_done.
  cbn. destruct (contains _ m); tidy_done.
Qed.

Lemma update_dns_record_tidy cf zone_id dns_record_id record_type name content proxied :
  tidy [records_update dns_record_id zone_id record_type name content proxied]
       (update_dns_record cf zone_id dns_record_id record_type name content proxied).
Proof.
  unfold update_dns_record, api.
  destruct (update_response _ _ _ _ _ _ _) as [r|[m|m]]; tidy_done.
Qed.

Lemma delete_dns_record_tidy cf zone_id dns_record_id record_name :
  tidy [records_delete dns_record_id zone_id]
       (delete_dns_record cf zone_id dns_record_id record_name).
Proof.
  unfold delete_dns_record, api.
  destruct (delete_response _ _ _) as [d|[m|m]]; try tidy_done.
  cbn. destruct (delete_confirmed d _); tidy_done.
Qed.

End Operations.

(** ** The workflows as compositions *)

Section Workflows.
Context {datetime : Type}.
Context (isoformat : datetime → pystr).
Context (json_dumps : json → pystr).
Implicit Types (cf : Cloudflare datetime) (rs : list (DnsRecord datetime)).
Implicit Types (r : DnsRecord datetime).

Lemma get_all_dns_records_fails cf zone_id e :
  list_response cf zone_id = Raises e →
  get_all_dns_records cf zone_id =
    ([Api (records_list zone_id); Output Stderr (fetch_error_message e)], Exit 1).
Proof.
  intros H. unfold get_all_dns_records, api. rewrite H. by destruct e.
Qed.

(** The update branch of [add], trace and end. *)
Lemma handle_add_or_update_update_run cf zone_id args rs r :
  list_response cf zone_id = Returns rs →
  find_dns_record (add_record_name args) (lit "A") rs = Some r →
  ¬ (rec_content r = add_ip_address args ∧ rec_proxied r = Some (add_proxy args)) →
  let update := update_dns_record cf zone_id (rec_id r) (lit "A")
                  (add_record_name args) (add_ip_address args) (add_proxy args) in
  handle_add_or_update cf zone_id args =
    ([ Output Stdout (fetching_message zone_id);
       Api (records_list zone_id);
       Output Stdout (lit "Searching for existing " ++ lit "A" ++ lit " record named '" ++
                      add_record_name args ++ lit "'...");
       Output Stdout (lit "Found existing record (ID: " ++ rec_id r ++
                      lit ", IP: " ++ rec_content r ++ lit ", Proxied: " ++
                      str_of_opt_bool (rec_proxied r) ++ lit ").") ] ++ update.1,
     discard update.2).
Proof.
  intros Hl Hf Hn update. subst update.
  rewrite (handle_add_or_update_fetched _ _ _ _ Hl), Hf.
  replace (bool_decide _ && bool_decide _) with false.
  - destruct (update_dns_record _ _ _ _ _ _ _) as [t [?|?|?|]];
      cbn; by rewrite ?app_nil_r.
  - symmetry. apply andb_false_iff.
    destruct (bool_decide_reflect (rec_content r = add_ip_address args)); [|by left].
    right. apply bool_decide_eq_false_2. tauto.
Qed.

(** The create branch of [add], trace and end. *)
Lemma handle_add_or_update_create_run cf zone_id args rs :
  list_response cf zone_id = Returns rs →
  find_dns_record (add_record_name args) (lit "A") rs = None →
  let create := create_dns_record cf zone_id (lit "A") (add_record_name args)
                  (add_ip_address args) (add_proxy args) in
  handle_add_or_update cf zone_id args =
    ([ Output Stdout (fetching_message zone_id);
       Api (records_list zone_id);
       Output Stdout (lit "Searching for existing " ++ lit "A" ++ lit " record named '" ++
                      add_record_name args ++ lit "'...");
       Output Stdout (lit "No existing " ++ lit "A" ++ lit " record found for '" ++
                      add_record_name args ++ lit "'. Creating new record...") ] ++ create.1,
     discard create.2).
Proof.
  intros Hl Hf create. subst create.
  rewrite (handle_add_or_update_fetched _ _ _ _ Hl), Hf.
  destruct (create_dns_record _ _ _ _ _ _) as [t [?|?|?|]];
    cbn; by rewrite ?app_nil_r.
Qed.

(** The delete branch of [rm], trace and end. *)
Lemma handle_remove_delete_run cf zone_id args rs r :
  list_response cf zone_id = Returns rs →
  find_dns_record (rm_record_name args) (lit "A") rs = Some r →
  let delete := delete_dns_record cf zone_id (rec_id r) (rm_record_name args) in
  handle_remove cf zone_id args =
    ([ Output Stdout (fetching_message zone_id);
       Api (records_list zone_id);
       Output Stdout (lit "Searching for existing " ++ lit "A" ++ lit " record named '" ++
                      rm_record_name args ++ lit "'...");
       Output Stdout (lit "Found record to delete (ID: " ++ rec_id r ++ lit ").") ] ++ delete.1,
     discard delete.2).
Proof.
  intros Hl Hf delete. subst delete. unfold handle_remove.
  rewrite (get_all_dns_records_returns _ _ _ Hl).
  cbn -[delete_dns_record]. rewrite Hf.
  destruct (delete_dns_record cf zone_id (rec_id r) (rm_record_name args))
    as [t [?|?|?|]]; cbn; by rewrite ?app_nil_r.
Qed.




Lemma handle_list_orderly cf zone_id :
  orderly zone_id (handle_list isoformat json_dumps cf zone_id) ∧
  api_calls (handle_list isoformat json_dumps cf zone_id).1 = [records_list zone_id].
Proof.
  unfold handle_list.
  destruct (list_response cf zone_id) as [rs|e] eqn:Hl.
  - rewrite (get_all_dns_records_returns _ _ _ Hl).
    destruct rs; cbn; (split; [|done]); unfold orderly, fetch_then_one; cbn;
      (split; [by left|]); (split; [exists []; by repeat constructor|]);
      (split; [lia|done]).
  - rewrite (get_all_dns_records_fails _ _ _ Hl). split; [|done].
    unfold orderly, fetch_then_one. cbn. split; [by right|].
    split; [exists []; by repeat constructor|]. split; [lia|done].
Qed.

End Workflows.

(** ** Configuration, further *)

(** X1. [get_env] returns the value as it is set, surrounding blanks
    included, exactly when the variable is set to a string with at
    least one character that is not whitespace; in every other case it
    prints the message naming the variable on the error stream and
    exits with status 1. *)
Theorem get_env_verbatim_or_exit (environ : gmap pystr pystr) (key : pystr) :
  get_env environ key =
    match environ !! key with
    | Some v =>
        if forallb isspace v
        then ([Output Stderr (empty_variable_message key)], Exit 1)
        else ([], Ret v)
    | None => ([Output Stderr (empty_variable_message key)], Exit 1)
    end.
Proof.
  destruct (blank (environ !! key)) eqn:Hb.
  - rewrite (get_env_blank _ _ Hb). unfold blank in Hb.
    destruct (environ !! key); [by rewrite Hb|done].
  - destruct (get_env_set _ _ Hb) as (v & Hv & ->). rewrite Hv in Hb |- *.
    cbn in Hb. by rewrite Hb.
Qed.

(** X2. When the three required variables are set and not blank,
    [load_config] prints nothing and returns a dict that holds exactly
    these three variables with the values of the environment, unchanged;
    no other variable of the environment is copied. *)
Theorem load_config_copies_the_three (environ : gmap pystr pystr) :
  (∀ k, k ∈ required → blank (environ !! k) = false) →
  ∃ config : gmap pystr pystr,
    load_config environ = ([], Ret config) ∧
    ∀ k, config !! k = if bool_decide (k ∈ required) then environ !! k else None.
Proof.
  intros Hreq. unfold load_config.
  destruct (get_env_set environ CLOUDFLARE_EMAIL) as (e & He & ->).
  { apply Hreq. unfold required. rewrite !elem_of_cons. tauto. }
  destruct (get_env_set environ CLOUDFLARE_API_KEY) as (a & Ha & ->).
  { apply Hreq. unfold required. rewrite !elem_of_cons. tauto. }
  destruct (get_env_set environ ZONE_ID) as (z & Hz & ->).
  { apply Hreq. unfold required. rewrite !elem_of_cons. tauto. }
  eexists. split; [reflexivity|]. intros k.
  destruct (config_lookup e a z) as (H1 & H2 & H3). cbn in H1, H2, H3.
  destruct (bool_decide_reflect (k ∈ required)) as [Hk|Hk];
    unfold required in Hk; rewrite !elem_of_cons, elem_of_nil in Hk.
  - destruct Hk as [->|[->|[->|[]]]]; congruence.
  - rewrite !lookup_insert_ne by (intros <-; tauto). apply lookup_empty.
Qed.

Section MainFurther.
Context {datetime : Type}.
Context (isoformat : datetime → pystr).
Context (json_dumps : json → pystr).

Lemma main_client_raises (environ : gmap pystr pystr)
    (new_client : pystr → pystr → response (Cloudflare datetime))
    (argv : list pystr) (email api_key : pystr) (e : exn) :
  (∀ k, k ∈ required → blank (environ !! k) = false) →
  environ !! CLOUDFLARE_EMAIL = Some email →
  environ !! CLOUDFLARE_API_KEY = Some api_key →
  new_client email api_key = Raises e →
  main isoformat json_dumps environ new_client argv =
    ([Output Stderr (lit "Error initializing Cloudflare client: " ++ str_of_exn e)],
     Exit 1).
Proof.
  intros Hreq He Ha Hnew. unfold main, load_config.
  destruct (get_env_set environ CLOUDFLARE_EMAIL) as (? & ? & ->).
  { apply Hreq. unfold required. rewrite !elem_of_cons. tauto. }
  destruct (get_env_set environ CLOUDFLARE_API_KEY) as (? & ? & ->).
  { apply Hreq. unfold required. rewrite !elem_of_cons. tauto. }
  destruct (get_env_set environ ZONE_ID) as (z & ? & ->).
  { apply Hreq. unfold required. rewrite !elem_of_cons. tauto. }
  simplify_eq. cbn. unfold subscript.
  destruct (config_lookup email api_key z) as (-> & -> & _).
  cbn. by rewrite Hnew.
Qed.

(** X3. When the three variables are set and not blank but building
    the client raises, [main] prints one line with the exception's text
    on the error stream and exits with status 1, before the command line
    is looked at and without any call to the provider. *)
Theorem main_client_failure_is_fatal (environ : gmap pystr pystr)
    (new_client : pystr → pystr → response (Cloudflare datetime))
    (argv : list pystr) (email api_key : pystr) (e : exn) :
  (∀ k, k ∈ required → blank (environ !! k) = false) →
  environ !! CLOUDFLARE_EMAIL = Some email →
  environ !! CLOUDFLARE_API_KEY = Some api_key →
  new_client email api_key = Raises e →
  let run := main isoformat json_dumps environ new_client argv in
  run = ([Output Stderr (lit "Error initializing Cloudflare client: " ++ str_of_exn e)],
         Exit 1) ∧
  api_calls run.1 = [].
Proof.
  intros Hreq He Ha Hnew run. subst run.
  by rewrite (main_client_raises environ new_client argv email api_key e).
Qed.

(** X4. When the three variables are set and not blank, the client is
    built and the command line parses, [main] prints nothing of its
    own: the run is that of the chosen workflow, on the zone read from
    ZONE_ID as it is set. *)
Theorem main_runs_the_chosen_workflow (environ : gmap pystr pystr)
    (new_client : pystr → pystr → response (Cloudflare datetime))
    (argv : list pystr) (email api_key zone_id : pystr) cf (ns : Namespace) :
  (∀ k, k ∈ required → blank (environ !! k) = false) →
  environ !! CLOUDFLARE_EMAIL = Some email →
  environ !! CLOUDFLARE_API_KEY = Some api_key →
  environ !! ZONE_ID = Some zone_id →
  new_client email api_key = Returns cf →
  parse_args argv = mret ns →
  main isoformat json_dumps environ new_client argv =
    func isoformat json_dumps ns cf zone_id.
Proof.
  intros Hreq He Ha Hz Hnew Hparse.
  rewrite (main_configured isoformat json_dumps environ new_client argv
             email api_key zone_id cf); try done;
    try (rewrite <-?He, <-?Ha, <-?Hz; apply Hreq; unfold required;
         rewrite !elem_of_cons; tauto).
  rewrite Hparse. cbn. by destruct (func _ _ _ _ _).
Qed.







End MainFurther.

(** ** The workflows, further *)

Section WorkflowsFurther.
Context {datetime : Type}.
Context (isoformat : datetime → pystr).
Context (json_dumps : json → pystr).
Implicit Types (cf : Cloudflare datetime) (rs : list (DnsRecord datetime)).
Implicit Types (r : DnsRecord datetime).

(** X8. When the fetch raises, each of the three workflows stops there:
    after its first progress line and the fetch it prints the fetch
    diagnostic on the error stream and exits with status 1, having made
    no other call. *)
Theorem fetch_failure_stops_every_workflow cf zone_id e :
  list_response cf zone_id = Raises e →
  let stopped : M unit :=
    ([ Output Stdout (fetching_message zone_id);
       Api (records_list zone_id);
       Output Stderr (fetch_error_message e) ], Exit 1) in
  (∀ args, handle_add_or_update cf zone_id args = stopped) ∧
  (∀ args, handle_remove cf zone_id args = stopped) ∧
  handle_list isoformat json_dumps cf zone_id = stopped.
Proof.
  intros Hl stopped. subst stopped.
  unfold handle_add_or_update, handle_remove, handle_list.
  by rewrite (get_all_dns_records_fails _ _ _ Hl).
Qed.

(** X9. The provider calls of [add] are settled by the fetch alone:
    the fetch, then nothing when it raised or when the first record
    with the requested name and type A has the requested content and
    flag, one update under that record's identifier when it differs,
    one create when there is no such record.  [add] never deletes. *)
Theorem add_calls_decided_by_fetch cf zone_id args :
  api_calls (handle_add_or_update cf zone_id args).1 =
    records_list zone_id ::
    match list_response cf zone_id with
    | Returns rs =>
        match find_dns_record (add_record_name args) (lit "A") rs with
        | Some r =>
            if bool_decide (rec_content r = add_ip_address args ∧
                            rec_proxied r = Some (add_proxy args))
            then []
            else [records_update (rec_id r) zone_id (lit "A") (add_record_name args)
                    (add_ip_address args) (add_proxy args)]
        | None =>
            [records_create zone_id (lit "A") (add_record_name args)
               (add_ip_address args) (add_proxy args)]
        end
    | Raises _ => []
    end.
Proof.
  destruct (list_response cf zone_id) as [rs|e] eqn:Hl.
  - destruct (find_dns_record _ _ rs) as [r|] eqn:Hf.
    + case_bool_decide as Hid.
      * destruct Hid. by rewrite (handle_add_or_update_no_op _ _ _ rs r).
      * rewrite (handle_add_or_update_update_run _ _ _ rs r) by done.
        cbn [fst]. rewrite api_calls_app.
        by rewrite (proj1 (proj2 (update_dns_record_tidy _ _ _ _ _ _ _))).
    + rewrite (handle_add_or_update_create_run _ _ _ rs) by done.
      cbn [fst]. rewrite api_calls_app.
      by rewrite (proj1 (proj2 (create_dns_record_tidy _ _ _ _ _ _))).
  - unfold handle_add_or_update. by rewrite (get_all_dns_records_fails _ _ _ Hl).
Qed.

(** X10. The provider calls of [rm] are settled by the fetch alone: the
    fetch, then one delete under the identifier of the first record
    with the requested name and type A when there is one, and nothing
    otherwise.  [rm] never creates or updates, and never deletes a
    record of another name or type. *)
Theorem rm_calls_decided_by_fetch cf zone_id args :
  api_calls (handle_remove cf zone_id args).1 =
    records_list zone_id ::
    match list_response cf zone_id with
    | Returns rs =>
        match find_dns_record (rm_record_name args) (lit "A") rs with
        | Some r => [records_delete (rec_id r) zone_id]
        | None => []
        end
    | Raises _ => []
    end.
Proof.
  destruct (list_response cf zone_id) as [rs|e] eqn:Hl.
  - destruct (find_dns_record _ _ rs) as [r|] eqn:Hf.
    + rewrite (handle_remove_delete_run _ _ _ rs r) by done.
      cbn [fst]. rewrite api_calls_app.
      by rewrite (proj1 (proj2 (delete_dns_record_tidy _ _ _ _))).
    + unfold handle_remove. rewrite (get_all_dns_records_returns _ _ _ Hl).
      cbn. by rewrite Hf.
  - unfold handle_remove. by rewrite (get_all_dns_records_fails _ _ _ Hl).
Qed.

(** X11. [list] makes the fetch and no other call, whatever the
    provider answers. *)
Theorem list_only_fetches cf zone_id :
  api_calls (handle_list isoformat json_dumps cf zone_id).1 = [records_list zone_id].
Proof. apply handle_list_orderly. Qed.

(** X12. When the first record with the requested name and type A has
    the requested content but another proxied flag, [add] makes one
    update call, carrying the record's identifier, the unchanged
    content and the requested flag. *)
Theorem add_flag_change_alone_updates cf zone_id args rs r :
  list_response cf zone_id = Returns rs →
  find_dns_record (add_record_name args) (lit "A") rs = Some r →
  rec_content r = add_ip_address args →
  rec_proxied r = Some (negb (add_proxy args)) →
  api_calls (handle_add_or_update cf zone_id args).1 =
    [records_list zone_id;
     records_update (rec_id r) zone_id (lit "A") (add_record_name args)
       (rec_content r) (add_proxy args)].
Proof.
  intros Hl Hf Hc Hp.
  rewrite (handle_add_or_update_update_run _ _ _ rs r); [|done|done|].
  - cbn [fst]. rewrite api_calls_app.
    rewrite (proj1 (proj2 (update_dns_record_tidy _ _ _ _ _ _ _))).
    by rewrite Hc.
  - rewrite Hp. intros [_ [= H]]. by destruct (add_proxy args).
Qed.

(** X13. When a record matches and the delete call returns, whatever
    it returns, [rm] returns normally: the [False] that
    [delete_dns_record] reports on an unexpected answer is dropped, and
    the process ends with status 0. *)
Theorem rm_ends_with_status_0_when_delete_returns cf zone_id args rs r delete_result :
  list_response cf zone_id = Returns rs →
  find_dns_record (rm_record_name args) (lit "A") rs = Some r →
  delete_response cf (rec_id r) zone_id = Returns delete_result →
  (handle_remove cf zone_id args).2 = Ret tt ∧
  exit_status (handle_remove cf zone_id args).2 = Some 0.
Proof.
  intros Hl Hf Hd.
  rewrite (handle_remove_delete_run _ _ _ rs r) by done.
  unfold delete_dns_record, api. rewrite Hd. cbn.
  by destruct (delete_confirmed _ _).
Qed.

(** X14. When the delete call returns, [delete_dns_record] never exits:
    it returns [True], after a confirmation on standard output, exactly
    when the answer carries the identifier that was asked for, and
    otherwise [False], after a warning on the error stream. *)
Theorem delete_dns_record_reports_echo cf zone_id dns_record_id record_name delete_result :
  delete_response cf dns_record_id zone_id = Returns delete_result →
  let echoed := bool_decide (del_id <$> delete_result = Some dns_record_id) in
  let run := delete_dns_record cf zone_id dns_record_id record_name in
  run.2 = Ret echoed ∧
  printed Stdout run.1 =
    [lit "Attempting to delete record " ++ record_name ++ lit " (ID: " ++
     dns_record_id ++ lit ")..."] ++
    (if echoed then [lit "Successfully deleted record " ++ record_name ++ lit "."]
     else []) ∧
  length (printed Stderr run.1) = (if echoed then 0 else 1)%nat.
Proof.
  intros Hd echoed run. subst echoed run.
  unfold delete_dns_record, api. rewrite Hd. cbn.
  destruct delete_result as [d|]; cbn.
  - destruct (bool_decide_reflect (del_id d = dns_record_id)) as [Hid|Hid].
    + rewrite bool_decide_eq_true_2 by congruence. done.
    + rewrite bool_decide_eq_false_2 by congruence. done.
  - done.
Qed.

(** X15. When the create call returns nothing, [create_dns_record]
    fails on reading the identifier: it prints the unexpected-error
    line on the error stream, no confirmation, and exits with status 1
    although the call was made. *)
Theorem create_without_answer_is_fatal cf zone_id record_type name content proxied :
  create_response cf zone_id record_type name content proxied = Returns None →
  create_dns_record cf zone_id record_type name content proxied =
    ([ Output Stdout (lit "Attempting to create " ++ record_type ++ lit " record for " ++
                      name ++ lit " -> " ++ content ++ lit " (Proxied: " ++
                      str_of_bool proxied ++ lit ")...");
       Api (records_create zone_id record_type name content proxied);
       Output Stderr (lit "An unexpected error occurred while creating DNS record: " ++
                      lit "'NoneType' object has no attribute 'id'") ],
     Exit 1).
Proof. intros H. unfold create_dns_record, api. by rewrite H. Qed.

(** X16. When the create call raises, the hint is printed exactly when
    the exception is the provider's [APIError] and its text contains
    [already exists]; any other failure of create prints no hint. *)
Theorem create_hint_only_for_api_error cf zone_id record_type name content proxied e :
  create_response cf zone_id record_type name content proxied = Raises e →
  Output Stdout hint_message ∈
    (create_dns_record cf zone_id record_type name content proxied).1 ↔
  ∃ m, e = APIError m ∧ contains (lit "already exists") m = true.
Proof.
  intros H. unfold create_dns_record, api. rewrite H.
  destruct e as [m|m]; cbn.
  - destruct (contains _ m) eqn:Hm; cbn; rewrite !elem_of_cons, elem_of_nil.
    + split; [by eauto|]. intros _. do 3 right. by left.
    + split; [|by intros (? & [= <-] & ?); congruence].
      intros [[=]|[[=]|[[=]|[]]]].
  - rewrite !elem_of_cons, elem_of_nil.
    split; [|by intros (? & [=] & _)].
    intros [[=]|[[=]|[[=]|[]]]].
Qed.

End WorkflowsFurther.

(** ** The matcher and the printed records, further *)

Section DataFurther.
Context {datetime : Type}.
Context (isoformat : datetime → pystr).
Implicit Types (r : DnsRecord datetime) (l : list (DnsRecord datetime)).

(** X17. Searching two lists put end to end is searching the first and,
    only when it has no match, the second: what follows the first match
    never changes the result. *)
Theorem find_dns_record_app name record_type l1 l2 :
  find_dns_record name record_type (l1 ++ l2) =
    match find_dns_record name record_type l1 with
    | Some r => Some r
    | None => find_dns_record name record_type l2
    end.
Proof.
  induction l1 as [|x l1 IH]; [done|].
  rewrite <-app_comm_cons, !find_dns_record_cons.
  by destruct (decide _).
Qed.

(** X18. Provided [isoformat] tells dates apart, two records that differ
    in any of the eight fields are printed by [list] as different
    objects: the listing loses nothing of what was fetched. *)
Theorem output_record_inj r1 r2 :
  (∀ d1 d2, isoformat d1 = isoformat d2 → d1 = d2) →
  output_record isoformat r1 = output_record isoformat r2 →
  r1 = r2.
Proof.
  intros Hiso H. destruct r1 as [i1 t1 n1 c1 p1 l1 cr1 mo1], r2 as [i2 t2 n2 c2 p2 l2 cr2 mo2].
  unfold output_record in H. cbn in H.
  injection H as Hi Ht Hn Hc Hp Hl Hcr Hmo. subst.
  assert (∀ a b : option datetime,
            json_of_timestamp isoformat a = json_of_timestamp isoformat b → a = b) as Hts.
  { intros [a|] [b|] E; cbn in E; try done. injection E as E. by rewrite (Hiso _ _ E). }
  apply Hts in Hcr, Hmo. subst.
  assert (p1 = p2) as ->; [|done].
  destruct p1 as [[]|], p2 as [[]|]; by try discriminate.
Qed.

End DataFurther.

(** ** The further theorems at concrete inputs *)

Lemma sample_environ_set :
  ∀ k, k ∈ required → blank (Sample.environ !! k) = false.
Proof.
  intros k Hk. unfold required in Hk. rewrite !elem_of_cons, elem_of_nil in Hk.
  destruct Hk as [->|[->|[->|[]]]]; vm_compute; reflexivity.
Defined.

(** The three variables of a full environment, and nothing else, reach
    the configuration. *)
Lemma load_config_run :
  ∃ config : gmap pystr pystr,
    load_config Sample.environ = ([], Ret config) ∧
    ∀ k, config !! k = if bool_decide (k ∈ required) then Sample.environ !! k else None.
Proof. apply (load_config_copies_the_three Sample.environ sample_environ_set). Defined.

(** The client cannot be built: one line, status 1, no call. *)
Lemma main_client_failure_run :
  let run := main Sample.isoformat Sample.json_dumps Sample.environ
               (λ _ _, Raises (OtherException (lit "bad key")) : response (Cloudflare pystr))
               Sample.add_argv in
  run = ([Output Stderr (lit "Error initializing Cloudflare client: " ++ lit "bad key")],
         Exit 1) ∧
  api_calls run.1 = [].
Proof.
  apply (main_client_failure_is_fatal Sample.isoformat Sample.json_dumps Sample.environ
           (λ _ _, Raises (OtherException (lit "bad key"))) Sample.add_argv
           (lit "ops@example.com") (lit "secret") (OtherException (lit "bad key"))).
  - apply sample_environ_set.
  - vm_compute. reflexivity.
  - vm_compute. reflexivity.
  - reflexivity.
Defined.

(** [add host.example.com 1.2.3.4] with a full environment is the add
    workflow on the zone of ZONE_ID. *)
Lemma main_add_is_the_add_workflow :
  main Sample.isoformat Sample.json_dumps Sample.environ
    (λ _ _, Returns (Sample.provider [Sample.r_other])) Sample.add_argv =
  func Sample.isoformat Sample.json_dumps (NsAdd Sample.add_args)
    (Sample.provider [Sample.r_other]) Sample.zone.
Proof.
  apply (main_runs_the_chosen_workflow Sample.isoformat Sample.json_dumps
           Sample.environ (λ _ _, Returns (Sample.provider [Sample.r_other]))
           Sample.add_argv (lit "ops@example.com") (lit "secret") Sample.zone
           (Sample.provider [Sample.r_other]) (NsAdd Sample.add_args)).
  - apply sample_environ_set.
  - vm_compute. reflexivity.
  - vm_compute. reflexivity.
  - vm_compute. reflexivity.
  - reflexivity.
  - vm_compute. reflexivity.
Defined.

(** The provider is down: each workflow stops after the fetch. *)
Lemma fetch_failure_run :
  handle_remove (Sample.down (APIError (lit "Forbidden"))) Sample.zone Sample.rm_args =
    ([ Output Stdout (fetching_message Sample.zone);
       Api (records_list Sample.zone);
       Output Stderr (lit "Error fetching DNS records: " ++ lit "Forbidden") ], Exit 1).
Proof.
  apply (proj1 (proj2 (fetch_failure_stops_every_workflow Sample.isoformat
                         Sample.json_dumps (Sample.down (APIError (lit "Forbidden")))
                         Sample.zone (APIError (lit "Forbidden")) eq_refl))).
Defined.

(** The host is there with the right address but proxied: [add] without
    [--proxy] updates it. *)
Lemma add_flag_change_run :
  api_calls (handle_add_or_update
               (Sample.provider [Sample.record "id-flag" "1.2.3.4" (Some true)])
               Sample.zone Sample.add_args).1 =
    [records_list Sample.zone;
     records_update (lit "id-flag") Sample.zone (lit "A") Sample.host
       (lit "1.2.3.4") false].
Proof.
  apply (add_flag_change_alone_updates
           (Sample.provider [Sample.record "id-flag" "1.2.3.4" (Some true)])
           Sample.zone Sample.add_args
           [Sample.record "id-flag" "1.2.3.4" (Some true)]
           (Sample.record "id-flag" "1.2.3.4" (Some true))).
  - reflexivity.
  - vm_compute. reflexivity.
  - reflexivity.
  - reflexivity.
Defined.

(** A delete answered with another identifier still ends [rm] with
    status 0. *)
Lemma rm_unconfirmed_delete_run :
  (handle_remove (Sample.confused [Sample.r_old]) Sample.zone
     {| rm_record_name := Sample.host |}).2 = Ret tt ∧
  exit_status (handle_remove (Sample.confused [Sample.r_old]) Sample.zone
                 {| rm_record_name := Sample.host |}).2 = Some 0.
Proof.
  apply (rm_ends_with_status_0_when_delete_returns (Sample.confused [Sample.r_old])
           Sample.zone {| rm_record_name := Sample.host |} [Sample.r_old] Sample.r_old
           (Some {| del_id := lit "id-elsewhere" |})).
  - reflexivity.
  - vm_compute. reflexivity.
  - reflexivity.
Defined.

(** A delete echoed with the same identifier is confirmed. *)
Lemma delete_echo_run :
  let run := delete_dns_record (Sample.provider [Sample.r_old]) Sample.zone
               (lit "id-old") Sample.host in
  run.2 = Ret true ∧
  printed Stdout run.1 =
    [lit "Attempting to delete record " ++ Sample.host ++ lit " (ID: " ++
     lit "id-old" ++ lit ")..."] ++
    [lit "Successfully deleted record " ++ Sample.host ++ lit "."] ∧
  length (printed Stderr run.1) = 0%nat.
Proof.
  apply (delete_dns_record_reports_echo (Sample.provider [Sample.r_old]) Sample.zone
           (lit "id-old") Sample.host (Some {| del_id := lit "id-old" |})).
  reflexivity.
Defined.

(** A create answered with nothing. *)
Lemma create_without_answer_run :
  create_dns_record (Sample.confused []) Sample.zone (lit "A") Sample.host
    (lit "1.2.3.4") false =
    ([ Output Stdout (lit "Attempting to create " ++ lit "A" ++ lit " record for " ++
                      Sample.host ++ lit " -> " ++ lit "1.2.3.4" ++ lit " (Proxied: " ++
                      str_of_bool false ++ lit ")...");
       Api (records_create Sample.zone (lit "A") Sample.host (lit "1.2.3.4") false);
       Output Stderr (lit "An unexpected error occurred while creating DNS record: " ++
                      lit "'NoneType' object has no attribute 'id'") ],
     Exit 1).
Proof.
  apply (create_without_answer_is_fatal (Sample.confused []) Sample.zone (lit "A")
           Sample.host (lit "1.2.3.4") false).
  reflexivity.
Defined.

(** An exception that is not the provider's gets no hint, whatever its
    text. *)
Lemma create_no_hint_run :
  Output Stdout hint_message ∈
    (create_dns_record
       (Sample.refusing [] (OtherException (lit "it already exists")))
       Sample.zone (lit "A") Sample.host (lit "1.2.3.4") false).1 ↔
  ∃ m, OtherException (lit "it already exists") = APIError m ∧
       contains (lit "already exists") m = true.
Proof.
  apply (create_hint_only_for_api_error
           (Sample.refusing [] (OtherException (lit "it already exists")))
           Sample.zone (lit "A") Sample.host (lit "1.2.3.4") false
           (OtherException (lit "it already exists"))).
  reflexivity.
Defined.

(** A record and its copy built field by field are printed alike, and
    are the same record. *)
Lemma output_record_inj_run :
  Sample.r_same = Sample.record "id-same" "1.2.3.4" (Some false).
Proof.
  apply (output_record_inj Sample.isoformat Sample.r_same
           (Sample.record "id-same" "1.2.3.4" (Some false))).
  - intros d1 d2 H. exact H.
  - reflexivity.
Defined.
